(** * MEPS-weights: stratum totals of the ESI population (meps.go)

    A shallow embedding of [getvinf] (the reader of the SAS layout
    statements) and [getpopw] (the per-year aggregation over the
    fixed-width records), with the properties of the stratum encoding,
    of the record classification and of the failure behaviour.

    Go's [float64] is Rocq's primitive binary64 [float]; Go's [int] is a
    [Z] with the 64-bit wrap-around written out; a Go [string] is a
    sequence of bytes, here [string]; [map[string][2]int] is a
    [gmap string (Z * Z)]; a panic is the [Panic] result. *)

From Stdlib Require Import ZArith Lia Bool Ascii String Floats Uint63.
From Stdlib Require DecimalString.
From stdpp Require Import base option list gmap strings.

Local Open Scope string_scope.
Local Open Scope Z_scope.

(** ** Failures *)

(** The values a run of the program can panic with. *)
Inductive error : Type :=
| PathError (path : string)            (* os.Open could not open [path] *)
| ErrInvalid                           (* os.ErrInvalid: a nil *os.File was used *)
| ReadError (msg : string)             (* reading or decompressing failed *)
| NumError (fn num : string)           (* strconv.[fn] rejected [num] *)
| IndexOutOfRange (i : Z) (len : Z)    (* runtime error: index out of range *)
| SliceOutOfRange (lo hi : Z) (len : Z)(* runtime error: slice bounds out of range *)
| PanicNil                             (* panic(nil) *)
| FloatToIntUnspecified.               (* int(x) for a NaN, an infinity or a value
                                          outside int64: not a panic, the result is
                                          implementation-dependent in Go *)

Inductive result (A : Type) : Type :=
| Ok (a : A)
| Panic (e : error).
Arguments Ok {A} a.
Arguments Panic {A} e.

Definition bind {A B : Type} (r : result A) (k : A -> result B) : result B :=
  match r with
  | Ok a => k a
  | Panic e => Panic e
  end.

Notation "'let*' x ':=' r 'in' k" := (bind r (fun x => k))
  (at level 10, x name, r at level 100, k at level 200).
Notation "'let*' ' p ':=' r 'in' k" := (bind r (fun x => match x with p => k end))
  (at level 10, p pattern, r at level 100, k at level 200).

#[global] Instance error_eq_dec : EqDecision error.
Proof. solve_decision. Defined.

(** [panic(err)] for an error value that may be nil. *)
Definition panic {A : Type} (err : option error) : result A :=
  match err with
  | Some e => Panic e
  | None => Panic PanicNil
  end.

Definition is_ok {A : Type} (r : result A) : bool :=
  match r with Ok _ => true | Panic _ => false end.

(** ** Numbers *)

(** Go's [int] on the 64-bit targets: arithmetic wraps around. *)
Definition wrap64 (z : Z) : Z := (z + 2 ^ 63) mod 2 ^ 64 - 2 ^ 63.

Definition in_int64 (z : Z) : bool := (- 2 ^ 63 <=? z) && (z <? 2 ^ 63).

(** An integer constant used where a [float64] is expected (exact below
    2^53 in absolute value, which covers every constant of the program). *)
Definition F (z : Z) : float :=
  if z <? 0 then (- PrimFloat.of_uint63 (Uint63.of_Z (- z)))%float
  else PrimFloat.of_uint63 (Uint63.of_Z z).

(** [int(x)] of a [float64]: the fraction is discarded (truncation towards
    zero); for a value that does not fit the behaviour is
    implementation-dependent, which is [None] here. *)
Definition float_to_int (x : float) : option Z :=
  match Prim2SF x with
  | S754_zero _ => Some 0
  | S754_finite s m e =>
      let a := if 0 <=? e then Z.shiftl (Z.pos m) e else Z.shiftr (Z.pos m) (- e) in
      let v := if s then - a else a in
      if in_int64 v then Some v else None
  | S754_infinity _ | S754_nan => None
  end.

(** ** Strings *)

(** [len(s)], in bytes. *)
Definition len (s : string) : Z := Z.of_nat (String.length s).

(** [s[lo:hi]]; out of bounds it panics. *)
Definition slice (s : string) (lo hi : Z) : result string :=
  if (0 <=? lo) && (lo <=? hi) && (hi <=? len s)
  then Ok (substring (Z.to_nat lo) (Z.to_nat (hi - lo)) s)
  else Panic (SliceOutOfRange lo hi (len s)).

(** [toks[i]] on a slice of strings. *)
Definition index (toks : list string) (i : nat) : result string :=
  match toks !! i with
  | Some t => Ok t
  | None => Panic (IndexOutOfRange (Z.of_nat i) (Z.of_nat (length toks)))
  end.

(** [strings.HasPrefix]. *)
Definition HasPrefix (s p : string) : bool := String.prefix p s.

(** [strings.Contains]. *)
Fixpoint Contains (s substr : string) : bool :=
  String.prefix substr s ||
  match s with
  | EmptyString => false
  | String _ s' => Contains s' substr
  end.

(** [strings.TrimLeft] with a cutset of one ASCII byte: every leading
    occurrence of the byte is removed. *)
Fixpoint TrimLeft (s : string) (c : ascii) : string :=
  match s with
  | String a s' => if Ascii.eqb a c then TrimLeft s' c else s
  | EmptyString => EmptyString
  end.

(** [strings.Split(s, sep)[0]] for a separator of one byte: the part of
    [s] before the first occurrence of the separator. *)
Fixpoint Split_head (s : string) (sep : ascii) : string :=
  match s with
  | String a s' => if Ascii.eqb a sep then EmptyString else String a (Split_head s' sep)
  | EmptyString => EmptyString
  end.

(** The number of bytes of the white space character at the head of [s], 0
    when there is none.  White space is [unicode.IsSpace]: the six ASCII
    characters, and in UTF-8 U+0085, U+00A0, U+1680, U+2000..U+200A,
    U+2028, U+2029, U+202F, U+205F and U+3000. *)
Definition space_width (s : string) : nat :=
  match s with
  | EmptyString => 0%nat
  | String a r =>
      let n := Z.of_N (N_of_ascii a) in
      if ((9 <=? n) && (n <=? 13)) || (n =? 32) then 1%nat
      else
        match r with
        | String b r' =>
            let m := Z.of_N (N_of_ascii b) in
            if n =? 194 then (if (m =? 133) || (m =? 160) then 2%nat else 0%nat)
            else
              match r' with
              | String c _ =>
                  let k := Z.of_N (N_of_ascii c) in
                  if (n =? 225) && (m =? 154) && (k =? 128) then 3%nat
                  else if (n =? 226) && (m =? 128) &&
                          (((128 <=? k) && (k <=? 138)) || (k =? 168) || (k =? 169) || (k =? 175))
                  then 3%nat
                  else if (n =? 226) && (m =? 129) && (k =? 159) then 3%nat
                  else if (n =? 227) && (m =? 128) && (k =? 128) then 3%nat
                  else 0%nat
              | EmptyString => 0%nat
              end
        | EmptyString => 0%nat
        end
  end.

Definition flush (cur : string) : list string :=
  match cur with
  | EmptyString => []
  | _ => [cur]
  end.

(** [fields_from s skip cur]: the fields of [s], where [skip] bytes at the
    head of [s] still belong to a white space character and [cur] is the
    field read so far. *)
Fixpoint fields_from (s : string) (skip : nat) (cur : string) : list string :=
  match s with
  | EmptyString => flush cur
  | String a r =>
      match skip with
      | S k => fields_from r k cur
      | O =>
          match space_width s with
          | O => fields_from r 0 (cur ++ String a EmptyString)
          | S k => flush cur ++ fields_from r k EmptyString
          end
      end
  end.

(** [strings.Fields]: the maximal runs of bytes without white space. *)
Definition Fields (s : string) : list string := fields_from s 0 EmptyString.

Definition digit_val (a : ascii) : option Z :=
  let n := Z.of_N (N_of_ascii a) in
  if (48 <=? n) && (n <=? 57) then Some (n - 48) else None.

Fixpoint digits_val (acc : Z) (s : string) : option Z :=
  match s with
  | EmptyString => Some acc
  | String a s' =>
      match digit_val a with
      | Some d => digits_val (10 * acc + d) s'
      | None => None
      end
  end.

(** [strconv.Atoi]: an optional sign, then one or more decimal digits, and
    a value that fits [int]; its error is the [Panic] result. *)
Definition Atoi (s : string) : result Z :=
  let '(neg, body) :=
    match s with
    | String "-"%char r => (true, r)
    | String "+"%char r => (false, r)
    | _ => (false, s)
    end in
  match body with
  | EmptyString => Panic (NumError "Atoi" s)
  | _ =>
      match digits_val 0 body with
      | None => Panic (NumError "Atoi" s)
      | Some n =>
          let v := if neg then - n else n in
          if in_int64 v then Ok v else Panic (NumError "Atoi" s)
      end
  end.

(** [fmt.Sprintf("%d", n)]. *)
Definition itoa (n : Z) : string := DecimalString.NilZero.string_of_int (Z.to_int n).

(** [path.Join]: the elements separated by slashes.  (The cleaning that
    [path.Join] adds changes none of the paths built here.) *)
Definition path_Join (elems : list string) : string := String.concat "/" elems.

(** ** The record classification (getpopw, lines 184-224) *)

(** The age stratum of a birth year: the [switch] of lines 201-210.
    [None] is [continue]. *)
Definition age_stratum (dobyy : float) : option float :=
  if (dobyy <? F (2009 - 65))%float then None          (* too old *)
  else if (dobyy <? F (2012 - 45))%float then Some (F 1)
  else if (dobyy <? F (2012 - 18))%float then Some (F 0)
  else None.                                            (* too young *)

(** Lines 193-224: everything after the insurance test, on the decoded
    values.  [None] is [continue]; [Some x] is the [float64] that line 224
    converts to the stratum, every operation rounding to [float64]. *)
Definition stratum_value (dobyy region emprel female : float) : option float :=
  if negb (female =? F 1)%float && negb (female =? F 2)%float then None
  else
    let female := (female - F 1)%float in
    match age_stratum dobyy with
    | None => None
    | Some age =>
        if (region <? F 0)%float then None
        else
          let region := (region - F 1)%float in
          if (emprel =? F (-1))%float then None
          else
            let emprel := (emprel - F 1)%float in
            Some (F 1 + female + F 2 * emprel + F 4 * age + F 8 * region)%float
    end.

(** What the loop body decides for one record. *)
Inductive verdict : Type :=
| Excluded                 (* a [continue] was taken *)
| Stratum (s : Z)          (* the index used on line 226 *)
| Unspecified.             (* the conversion of line 224 is implementation-dependent *)

Definition verdict_of (v : option float) : verdict :=
  match v with
  | None => Excluded
  | Some x => match float_to_int x with Some s => Stratum s | None => Unspecified end
  end.

(** The classification as a function of the five decoded values: the test
    of line 184, then lines 193-224. *)
Definition classify (insur female dobyy region emprel : float) : verdict :=
  if negb (insur =? F 1)%float then Excluded
  else verdict_of (stratum_value dobyy region emprel female).

(** The recovery of the characteristics from a key (header comment, lines
    37-40), with Go's integer division and remainder. *)
Definition decode_wgtkey (wgtkey : Z) : Z * Z * Z * Z :=
  (Z.rem (wgtkey - 1) 2,
   Z.rem (Z.quot (wgtkey - 1) 2) 2,
   Z.rem (Z.quot (wgtkey - 1) 4) 2,
   Z.quot (wgtkey - 1) 8).

(** Line 224 on already normalized characteristics. *)
Definition encode_stratum (female emprel age region : float) : option Z :=
  float_to_int (F 1 + female + F 2 * emprel + F 4 * age + F 8 * region)%float.

(** ** Files *)

(** What a [bufio.Scanner] yields: the lines in order, and what [Err]
    reports once they are used up ([None] at the end of the input).  When
    in the course of the lines the scanner records that error is a matter
    of the file, see [f_noticed]. *)
Record scanner : Type := Scanner { sc_lines : list string; sc_err : option error }.

(** An open file: its text as scanned line by line; what [gzip.NewReader]
    makes of it (an error, or the scanner over the decompressed text); and
    the number of lines of the text that [Scan] yields before the scanner
    records the read error of the text.  A scanner that has failed to read
    still yields what it holds, the complete lines and then the unfinished
    last one, and [Err] reports the error from the moment it is recorded:
    the lines from number [f_noticed] on (counted from 0) are yielded with
    the error already reported.  The number is of no effect when the text
    has no read error, and from the number of lines on it says that the
    error is recorded when the lines have run out. *)
Record file : Type :=
  File { f_text : scanner; f_gzip : result scanner; f_noticed : nat }.

(** The files under [dr]: what opening a path gives. *)
Definition filesystem : Type := string -> result file.

(** [os.Open]: the pair of a file (nil on failure) and an error (nil on
    success). *)
Definition os_Open (fs : filesystem) (name : string) : option file * option error :=
  match fs name with
  | Ok f => (Some f, None)
  | Panic e => (None, Some e)
  end.

(** Reading from a nil [*os.File] fails with [os.ErrInvalid]. *)
Definition bufio_NewScanner (fid : option file) : scanner :=
  match fid with
  | Some f => f_text f
  | None => Scanner [] (Some ErrInvalid)
  end.

(** After how many lines the scanner made by [bufio.NewScanner] records
    its read error. *)
Definition noticed_after (fid : option file) : nat :=
  match fid with
  | Some f => f_noticed f
  | None => 0%nat
  end.

Definition gzip_NewReader (hid : option file) : result scanner :=
  match hid with
  | Some f => f_gzip f
  | None => Panic ErrInvalid
  end.

(** How a [for rdr.Scan()] loop was left. *)
Inductive loop_exit : Type :=
| Broke (rest : list string)   (* by [break], with the lines not yet scanned *)
| Exhausted.                   (* [Scan] returned false *)

(** [rdr.Err()] after a loop over the scanner [rdr], which records its read
    error after [noticed] lines.  When the lines have run out it is the error
    of the scanner.  After a [break] it is that error too if the scanner had
    recorded it when it yielded the line of the break, which is the line
    number [length (sc_lines rdr) - length rest - 1]; otherwise it is nil. *)
Definition Err (rdr : scanner) (noticed : nat) (e : loop_exit) : option error :=
  match e with
  | Broke rest =>
      if (noticed <? length (sc_lines rdr) - length rest)%nat then sc_err rdr else None
  | Exhausted => sc_err rdr
  end.

Definition unscanned (e : loop_exit) : list string :=
  match e with
  | Broke rest => rest
  | Exhausted => []
  end.

(** ** Configuration (lines 56-69) *)

Definition dr : string := "/nfs/kshedden/MEPS/data".

Definition yrnum : gmap Z Z :=
  list_to_map [(2009, 129); (2010, 138); (2011, 147); (2012, 155); (2013, 163);
               (2014, 171); (2015, 174)].

Definition wgtvar : gmap Z string :=
  list_to_map [(2009, "PERWT09F"); (2010, "PERWT10F"); (2011, "PERWT11F");
               (2012, "PERWT12F"); (2013, "PERWT13F"); (2014, "PERWT14F");
               (2015, "PERWT15P")].

(** ** getvinf *)

(** The closure [process] (lines 89-113), with the map it updates passed
    in and out. *)
Definition process (vdef : gmap string (Z * Z)) (line : string)
  : result (gmap string (Z * Z)) :=
  let toks := Fields line in
  let* vname := index toks 1 in
  let* tok0 := index toks 0 in
  let pos := TrimLeft tok0 "@" in
  let* ipos := Atoi pos in
  let ipos := wrap64 (ipos - 1) in
  let* tok2 := index toks 2 in
  let w := TrimLeft tok2 "$" in
  let w := if Contains w "." then Split_head w "." else w in
  let* iw := Atoi w in
  Ok (<[vname := (ipos, iw)]> vdef).

(** The first loop (lines 116-122). *)
Fixpoint initial_section (vdef : gmap string (Z * Z)) (lines : list string)
  : result (gmap string (Z * Z) * loop_exit) :=
  match lines with
  | [] => Ok (vdef, Exhausted)
  | line :: rest =>
      if Contains line "INPUT @1" then
        let* s := slice line 5 (len line) in
        let* vdef := process vdef s in
        Ok (vdef, Broke rest)
      else initial_section vdef rest
  end.

(** The second loop (lines 127-136). *)
Fixpoint field_section (vdef : gmap string (Z * Z)) (lines : list string)
  : result (gmap string (Z * Z) * loop_exit) :=
  match lines with
  | [] => Ok (vdef, Exhausted)
  | line :: rest =>
      if HasPrefix line ";" then Ok (vdef, Broke rest)
      else
        let* s := slice line 5 (len line) in
        let* vdef := process vdef s in
        field_section vdef rest
  end.

(** Lines 86-141: the two loops over the scanner. *)
Definition scan_vinf (rdr : scanner) (noticed : nat) : result (gmap string (Z * Z)) :=
  let* '(vdef, e1) := initial_section ∅ (sc_lines rdr) in
  match Err rdr noticed e1 with
  | Some e => Panic e
  | None =>
      let* '(vdef, e2) := field_section vdef (unscanned e1) in
      match Err rdr noticed e2 with
      | Some e => Panic e
      | None => Ok vdef
      end
  end.

(** The name of the SAS statements file of a year (lines 76-77); a year
    that [yrnum] lacks reads as the code number 0. *)
Definition layout_path (year : Z) : string :=
  let sp := "h" ++ itoa (default 0 (yrnum !! year)) ++ "su.txt" in
  path_Join [dr; itoa year; sp].

Definition getvinf (fs : filesystem) (year : Z) : result (gmap string (Z * Z)) :=
  let sp := layout_path year in
  let '(fid, err) := os_Open fs sp in
  match err with
  | Some e => Panic e
  | None => scan_vinf (bufio_NewScanner fid) (noticed_after fid)
  end.

(** ** getpopw *)

(** The name of the data file of a year (lines 154-155). *)
Definition data_path (year : Z) : string :=
  let dpath := "h" ++ itoa (default 0 (yrnum !! year)) ++ ".dat.gz" in
  path_Join [dr; itoa year; dpath].

Section Aggregator.

(** [strconv.ParseFloat(s, 64)]: the value, or [None] for its error. *)
Variable ParseFloat : string -> option float.

(** The closure [ext] (lines 168-177).  A name that the map lacks reads
    as the zero value [[2]int{0, 0}]. *)
Definition ext (vdef : gmap string (Z * Z)) (line vname : string) : result float :=
  let u := default (0, 0) (vdef !! vname) in
  let start := u.1 in
  let end_ := wrap64 (u.1 + u.2) in
  let* s := slice line start end_ in
  match ParseFloat s with
  | Some x => Ok x
  | None => Panic (NumError "ParseFloat" s)
  end.

(** Lines 181-224 for one line of the data: [None] when a [continue] is
    taken, else the stratum and the weight that line 226 uses. *)
Definition record (year : Z) (ys : string) (vdef : gmap string (Z * Z)) (line : string)
  : result (option (Z * float)) :=
  let* insur := ext vdef line ("PEGJA" ++ ys) in
  if negb (insur =? F 1)%float then Ok None
  else
    let* dobyy := ext vdef line "DOBYY" in
    let* region := ext vdef line ("REGION" ++ ys) in
    let* wgt := ext vdef line (default "" (wgtvar !! year)) in
    let* emprel := ext vdef line ("HPEJA" ++ ys) in
    let* female := ext vdef line "SEX" in
    match stratum_value dobyy region emprel female with
    | None => Ok None
    | Some x =>
        match float_to_int x with
        | Some stratum => Ok (Some (stratum, wgt))
        | None => Panic FloatToIntUnspecified
        end
    end.

(** Line 226: [sampsize[stratum] += wgt]. *)
Definition accumulate (sampsize : list float) (stratum : Z) (wgt : float)
  : result (list float) :=
  if (0 <=? stratum) && (stratum <? Z.of_nat (length sampsize)) then
    match sampsize !! Z.to_nat stratum with
    | Some x => Ok (<[Z.to_nat stratum := (x + wgt)%float]> sampsize)
    | None => Panic (IndexOutOfRange stratum (Z.of_nat (length sampsize)))
    end
  else Panic (IndexOutOfRange stratum (Z.of_nat (length sampsize))).

(** The loop of lines 179-227 over the lines that the scanner yields. *)
Fixpoint records (year : Z) (ys : string) (vdef : gmap string (Z * Z))
  (sampsize : list float) (lines : list string) : result (list float) :=
  match lines with
  | [] => Ok sampsize
  | line :: rest =>
      let* r := record year ys vdef line in
      match r with
      | None => records year ys vdef sampsize rest
      | Some (stratum, wgt) =>
          let* sampsize := accumulate sampsize stratum wgt in
          records year ys vdef sampsize rest
      end
  end.

Definition getpopw (fs : filesystem) (year : Z) : result (list float) :=
  let* vdef := getvinf fs year in
  let* ys := slice (itoa year) 2 (len (itoa year)) in
  let sampsize := replicate 33 (F 0) in
  let dpath := data_path year in
  let '(hid, err) := os_Open fs dpath in
  if bool_decide (err <> err) then panic err
  else
    let* fid := gzip_NewReader hid in
    let* sampsize := records year ys vdef sampsize (sc_lines fid) in
    match sc_err fid with
    | Some e => Panic e
    | None => Ok sampsize
    end.

End Aggregator.

(** ** The wording of the specification *)

(** The age rule with the reference year as a parameter: too old below
    [referenceYear - 65], stratum 1 below [referenceYear + 3 - 45],
    stratum 0 below [referenceYear + 3 - 18], too young otherwise. *)
Definition age_stratum_spec (referenceYear : Z) (dobyy : float) : option float :=
  if (dobyy <? F (referenceYear - 65))%float then None
  else if (dobyy <? F (referenceYear + 3 - 45))%float then Some (F 1)
  else if (dobyy <? F (referenceYear + 3 - 18))%float then Some (F 0)
  else None.

(** The five exclusion checks: insurance is 1, sex is 1 or 2, the birth
    year is in the band from 1944 up to 1994, the region is not below 0,
    the employment relation is not -1. *)
Definition five_checks (insur female dobyy region emprel : float) : bool :=
  (insur =? F 1)%float
  && ((female =? F 1)%float || (female =? F 2)%float)
  && (negb (dobyy <? F 1944)%float && (dobyy <? F 1994)%float)
  && negb (region <? F 0)%float
  && negb (emprel =? F (-1))%float.

(** The normalized characteristics: three bits and a region in 0..3. *)
Definition normalized (female emprel age region : Z) : Prop :=
  0 <= female <= 1 /\ 0 <= emprel <= 1 /\ 0 <= age <= 1 /\ 0 <= region <= 3.

(** ** Descriptions of a layout document *)

(** A line that the loops of [getvinf] can process: it has the five bytes
    that are dropped, and [process] accepts the rest. *)
Definition good_line (line : string) : bool :=
  is_ok (let* s := slice line 5 (len line) in process ∅ s).

(** The lines that the second loop processes: those before the first line
    that starts with a semicolon. *)
Fixpoint before_terminator (lines : list string) : list string :=
  match lines with
  | [] => []
  | line :: rest => if HasPrefix line ";" then [] else line :: before_terminator rest
  end.

Definition terminated (lines : list string) : bool :=
  existsb (fun line => HasPrefix line ";") lines.

(** ** Totals of a stream of records *)

(** What one line adds to the total of stratum [i]: its weight when the
    loop body puts it in that stratum, nothing otherwise. *)
Definition add_weight (ParseFloat : string -> option float) (year : Z) (ys : string)
  (vdef : gmap string (Z * Z)) (i : Z) (total : float) (line : string) : float :=
  match record ParseFloat year ys vdef line with
  | Ok (Some (stratum, wgt)) => if stratum =? i then (total + wgt)%float else total
  | _ => total
  end.

(** The sum, in the order of the stream and from 0.0, of the weights of
    the records classified into stratum [i]. *)
Definition stratum_total (ParseFloat : string -> option float) (year : Z) (ys : string)
  (vdef : gmap string (Z * Z)) (lines : list string) (i : Z) : float :=
  fold_left (add_weight ParseFloat year ys vdef i) lines (F 0).

(** The loop body goes through on a line: the fields it needs decode, and
    the stratum, if there is one, is an index of the 33 entries.  (A
    conversion to [int] that Go leaves implementation-dependent counts as
    not going through.) *)
Definition record_fits (ParseFloat : string -> option float) (year : Z) (ys : string)
  (vdef : gmap string (Z * Z)) (line : string) : bool :=
  match record ParseFloat year ys vdef line with
  | Ok None => true
  | Ok (Some (stratum, _)) => (0 <=? stratum) && (stratum <? 33)
  | Panic _ => false
  end.

(** ** Data for the examples *)

(** A stand-in for [strconv.ParseFloat] on which the examples run: it
    agrees with it on the decimal integers of at most 15 digits, with an
    optional sign, which [float64] holds exactly, and rejects every other
    text (the library function accepts more). *)
Definition parse_integer (s : string) : option float :=
  let '(neg, body) :=
    match s with
    | String "-"%char r => (true, r)
    | String "+"%char r => (false, r)
    | _ => (false, s)
    end in
  if (1 <=? len body) && (len body <=? 15) then
    match digits_val 0 body with
    | Some n => Some (if neg then (- F n)%float else F n)
    | None => None
    end
  else None.

(** The files of the year 2009 only: the statements file with the given
    scanner, whose read error, if it has one, is recorded when the lines
    have run out, and the data file, absent for [None]. *)
Definition fs_2009 (layout : scanner) (data : option (result scanner)) : filesystem :=
  fun name =>
    if String.eqb name "/nfs/kshedden/MEPS/data/2009/h129su.txt" then
      Ok (File layout (Panic (ReadError "gzip: invalid header")) (length (sc_lines layout)))
    else if String.eqb name "/nfs/kshedden/MEPS/data/2009/h129.dat.gz" then
      match data with
      | Some gz => Ok (File (Scanner [] None) gz 0)
      | None => Panic (PathError name)
      end
    else Panic (PathError name).

(** The statements file of 2009 alone, with a read error recorded after
    [noticed] lines. *)
Definition fs_layout (layout : scanner) (noticed : nat) : filesystem :=
  fun name =>
    if String.eqb name "/nfs/kshedden/MEPS/data/2009/h129su.txt" then
      Ok (File layout (Panic (ReadError "gzip: invalid header")) noticed)
    else Panic (PathError name).

(** A statements file in the layout of the MEPS ones, for six variables. *)
Definition layout_2009 : list string :=
  [ "DATA WORK.H129;";
    "INFILE IN LRECL=25;";
    "INPUT @1 DUPERSID $8.0";
    "     @9 PEGJA09 2.0";
    "     @11 HPEJA09 2.0";
    "     @13 SEX 1.0";
    "     @14 DOBYY 4.0";
    "     @18 REGION09 2.0";
    "     @20 PERWT09F 6.0";
    ";";
    "RUN;" ].

(** Three records: an insured woman born in 1980 in region 2, a policy
    holder, with weight 1500; an uninsured person whose other fields are
    not numbers; an insured man born in 1950 in region 4, a dependent,
    with weight 250. *)
Definition data_2009 : list string :=
  [ "0000000101012198002001500";
    "0000000202xx?????--abcdef";
    "0000000301021195004000250" ].

(** The layout of [layout_2009] under the names of the year 2015. *)
Definition vdef_2015 : gmap string (Z * Z) :=
  list_to_map [("PEGJA15", (8, 2)); ("HPEJA15", (10, 2)); ("SEX", (12, 1));
               ("DOBYY", (13, 4)); ("REGION15", (17, 2)); ("PERWT15P", (19, 6))].

(** ** main (lines 236-268) *)

(** The years of the loop of line 238. *)
Definition years : list Z := [2009; 2010; 2011; 2012; 2013; 2014; 2015].

(** What a run of [main] leaves behind: whether [meps_totals.csv] was
    created, and the rows handed to the CSV writer, in order. *)
Record output : Type := Output { created : bool; rows : list (list string) }.

Section Main.

Variable ParseFloat : string -> option float.

(** [fmt.Sprintf("%.0f", x)]. *)
Variable format_f0 : float -> string.

(** The loop of lines 238-241, with the map [dw] passed in and out. *)
Fixpoint collect (fs : filesystem) (dw : gmap Z (list float)) (ys : list Z)
  : result (gmap Z (list float)) :=
  match ys with
  | [] => Ok dw
  | y :: rest =>
      let* ss := getpopw ParseFloat fs y in
      collect fs (<[y := ss]> dw) rest
  end.

(** [dw[2009+j][i]]: a year that the map lacks reads as the nil slice. *)
Definition cell (dw : gmap Z (list float)) (j i : nat) : result float :=
  let v := default [] (dw !! (2009 + Z.of_nat j)) in
  match v !! i with
  | Some x => Ok x
  | None => Panic (IndexOutOfRange (Z.of_nat i) (Z.of_nat (length v)))
  end.

(** [recs[j] = ...] on the slice of seven strings. *)
Definition set_rec (recs : list string) (j : nat) (s : string) : result (list string) :=
  if (j <? length recs)%nat then Ok (<[j := s]> recs)
  else Panic (IndexOutOfRange (Z.of_nat j) (Z.of_nat (length recs))).

(** The loop of lines 252-254. *)
Fixpoint fill_header (js : list nat) (recs : list string) : result (list string) :=
  match js with
  | [] => Ok recs
  | i :: rest =>
      let* recs := set_rec recs i (itoa (2009 + Z.of_nat i)) in
      fill_header rest recs
  end.

(** The loop of lines 258-260 for the row [i]. *)
Fixpoint fill_row (dw : gmap Z (list float)) (i : nat) (js : list nat) (recs : list string)
  : result (list string) :=
  match js with
  | [] => Ok recs
  | j :: rest =>
      let* x := cell dw j i in
      let* recs := set_rec recs j (format_f0 x) in
      fill_row dw i rest recs
  end.

(** The loop of lines 257-265.  [write k] is what the call number [k] of
    [wtr.Write] returns (the header is the call 0); the rows are those
    handed to the writer so far, the error is the value of a panic. *)
Fixpoint write_rows (write : nat -> option error) (dw : gmap Z (list float))
  (rws : list nat) (recs : list string) (out : list (list string))
  : list (list string) * option error :=
  match rws with
  | [] => (out, None)
  | i :: rest =>
      match fill_row dw i (seq 0 7) recs with
      | Panic e => (out, Some e)
      | Ok recs =>
          match write (S i) with
          | Some e => ((out ++ [recs])%list, Some e)
          | None => write_rows write dw rest recs (out ++ [recs])%list
          end
      end
  end.

(** [main]: [create] is the error of [os.Create], nil for [None].  The
    result is what the run leaves behind and the value it panics with, if
    it does. *)
Definition main (fs : filesystem) (create : option error) (write : nat -> option error)
  : output * option error :=
  match collect fs ∅ years with
  | Panic e => (Output false [], Some e)
  | Ok dw =>
      match create with
      | Some e => (Output false [], Some e)
      | None =>
          match fill_header (seq 0 7) (replicate 7 EmptyString) with
          | Panic e => (Output true [], Some e)
          | Ok recs =>
              let '(out, err) := write_rows write dw (seq 0 33) recs [recs] in
              (Output true out, err)
          end
      end
  end.

End Main.

(** ** Vocabulary of the further properties *)

(** The loop body takes a [continue] on the line. *)
Definition is_skipped (ParseFloat : string -> option float) (year : Z) (ys : string)
  (vdef : gmap string (Z * Z)) (line : string) : bool :=
  match record ParseFloat year ys vdef line with
  | Ok None => true
  | _ => false
  end.

(** The line declares the variable [name] at the 0-based position [pos]
    with the width [w]: after its first five bytes come the position token,
    the name and the width token. *)
Definition declares (line name : string) (pos w : Z) : Prop :=
  exists tok0 tok2 rest ipos,
    Fields (substring 5 (Z.to_nat (len line - 5)) line) = tok0 :: name :: tok2 :: rest /\
    Atoi (TrimLeft tok0 "@") = Ok ipos /\
    pos = wrap64 (ipos - 1) /\
    Atoi (Split_head (TrimLeft tok2 "$") ".") = Ok w.

(** Files that all open: the statements file and the data file of 2009 as
    given, and for every other name an empty statements file and an empty
    data stream. *)
Definition fs_all (layout : list string) (data : list string) : filesystem :=
  fun name =>
    if String.eqb name "/nfs/kshedden/MEPS/data/2009/h129su.txt" then
      Ok (File (Scanner layout None) (Panic (ReadError "gzip: invalid header")) 0)
    else if String.eqb name "/nfs/kshedden/MEPS/data/2009/h129.dat.gz" then
      Ok (File (Scanner [] None) (Ok (Scanner data None)) 0)
    else Ok (File (Scanner [] None) (Ok (Scanner [] None)) 0).

(** A stand-in for [fmt.Sprintf("%.0f", x)] on which the examples run: it
    agrees with it on the integers from 0 to 9999. *)
Definition format_small (x : float) : string :=
  match float_to_int x with
  | Some n => itoa n
  | None => "NaN"
  end.

(** The row [i] of the table: the totals of stratum [i] for the years, each
    formatted, where [v y] is the vector of the year [y]. *)
Definition table_row (format_f0 : float -> string) (v : Z -> list float) (i : nat)
  : list string :=
  map (fun y => format_f0 (default (F 0) (v y !! i))) years.

(** The rows handed to the writer when the calls of [wtr.Write] return
    [write]: all up to and including the first one whose call fails. *)
Fixpoint handed (write : nat -> option error) (rws : list nat) : list nat :=
  match rws with
  | [] => []
  | i :: rest =>
      match write (S i) with
      | Some _ => [i]
      | None => i :: handed write rest
      end
  end.

(** The first error among the calls of [wtr.Write] for the rows. *)
Fixpoint write_error (write : nat -> option error) (rws : list nat) : option error :=
  match rws with
  | [] => None
  | i :: rest =>
      match write (S i) with
      | Some e => Some e
      | None => write_error write rest
      end
  end.

(** The two decimal digits of a number from 0 to 99. *)
Definition two_digits (n : Z) : string :=
  String (ascii_of_nat (48 + Z.to_nat (n / 10)))
    (String (ascii_of_nat (48 + Z.to_nat (n mod 10))) EmptyString).

(** The name that a line gives to [process]: the second field after its
    first five bytes. *)
Definition line_name (line : string) : option string :=
  Fields (substring 5 (Z.to_nat (len line - 5)) line) !! 1%nat.

(** * Properties *)

(** ** The model on examples *)

Example Fields_ex :
  Fields "  @10 FOO	$5 " = ["@10"; "FOO"; "$5"] /\
  Fields " @1 DUPERSID $8.0" = ["@1"; "DUPERSID"; "$8.0"] /\
  Fields "" = [] /\
  Contains "     INPUT @1 DUPERSID" "INPUT @1" = true /\
  Contains "INPUT @2" "INPUT @1" = false /\
  TrimLeft "@@10" "@" = "10" /\
  Split_head "8.0" "." = "8" /\
  slice "abcdefg" 5 7 = Ok "fg" /\
  slice "abc" 5 3 = Panic (SliceOutOfRange 5 3 3).
Proof. vm_compute. repeat split; reflexivity. Qed.

Example Fields_nbsp_ex :
  Fields (String (ascii_of_nat 65) (String (ascii_of_nat 194) (String (ascii_of_nat 160)
            (String (ascii_of_nat 66) EmptyString)))) = ["A"; "B"].
Proof. vm_compute. reflexivity. Qed.

Example Atoi_ex :
  Atoi "-12" = Ok (-12) /\ Atoi "+7" = Ok 7 /\ is_ok (Atoi "1_0") = false /\
  is_ok (Atoi "") = false /\ is_ok (Atoi "-") = false /\
  is_ok (Atoi "9223372036854775808") = false /\
  Atoi "-9223372036854775808" = Ok (- 2 ^ 63) /\
  itoa 2009 = "2009" /\ itoa 0 = "0" /\ itoa (-5) = "-5" /\
  layout_path 2009 = "/nfs/kshedden/MEPS/data/2009/h129su.txt" /\
  data_path 2015 = "/nfs/kshedden/MEPS/data/2015/h174.dat.gz".
Proof. vm_compute. repeat split; reflexivity. Qed.

Example float_to_int_ex :
  float_to_int (F 10) = Some 10 /\ float_to_int (F (-7)) = Some (-7) /\
  float_to_int (F 5 / F 2)%float = Some 2 /\ float_to_int (F (-5) / F 2)%float = Some (-2) /\
  float_to_int (F 1 / F 0)%float = None /\ float_to_int (F 0 / F 0)%float = None.
Proof. vm_compute. repeat split; reflexivity. Qed.

Example classify_ex :
  classify (F 1) (F 2) (F 1980) (F 2) (F 1) = Stratum 10 /\
  classify (F 2) (F 2) (F 1980) (F 2) (F 1) = Excluded /\
  classify (F 1) (F 2) (F 1943) (F 2) (F 1) = Excluded /\
  classify (F 1) (F 2) (F 1994) (F 2) (F 1) = Excluded /\
  classify (F 1) (F 2) (F 1967) (F 2) (F 1) = Stratum 10 /\
  classify (F 1) (F 2) (F 1966) (F 2) (F 1) = Stratum 14 /\
  classify (F 1) (F 2) (F 1980) (F (-1)) (F 1) = Excluded /\
  classify (F 1) (F 2) (F 1980) (F 2) (F (-1)) = Excluded /\
  classify (F 1) (F 2) (F 1980) (F 2) (F 0 / F 0)%float = Unspecified.
Proof. vm_compute. repeat split; reflexivity. Qed.

Example process_ex : process ∅ "@10 FOO $5" = Ok {[ "FOO" := (9, 5) ]}.
Proof. vm_compute. reflexivity. Qed.

Example layout_2009_ex :
  getvinf (fs_2009 (Scanner layout_2009 None) None) 2009 =
  Ok (list_to_map [("DUPERSID", (0, 8)); ("PEGJA09", (8, 2)); ("HPEJA09", (10, 2));
                   ("SEX", (12, 1)); ("DOBYY", (13, 4)); ("REGION09", (17, 2));
                   ("PERWT09F", (19, 6))]).
Proof. vm_compute. reflexivity. Qed.

Example data_2009_ex :
  exists v, getpopw parse_integer (fs_2009 (Scanner layout_2009 None)
                        (Some (Ok (Scanner data_2009 None)))) 2009 = Ok v
       /\ v !! 10%nat = Some (F 1500) /\ v !! 31%nat = Some (F 250).
Proof. eexists. split; [vm_compute; reflexivity|]. split; vm_compute; reflexivity. Qed.

(** ** Facts on [float64] comparisons with constants *)

Lemma eqb_finite_eq (x c : float) s m e :
  Prim2SF c = S754_finite s m e -> (x =? c)%float = true -> x = c.
Proof.
  intros Hc H. rewrite FloatAxioms.eqb_spec, Hc in H.
  apply Prim2SF_inj. rewrite Hc.
  unfold SFeqb, SFcompare in H.
  destruct (Prim2SF x) as [s0|s0| |s0 m0 e0]; try discriminate.
  - destruct s0, s; discriminate.
  - destruct s0; discriminate.
  - destruct s0, s; try discriminate;
      destruct (Z.compare e0 e) eqn:He; try discriminate;
      apply Z.compare_eq in He; subst e0;
      destruct (Pos.compare_cont Eq m0 m) eqn:Hm; try discriminate;
      apply Pos.compare_eq in Hm; subst; reflexivity.
Qed.

Lemma ltb_finite_trans (x c1 c2 : float) m1 m2 e :
  Prim2SF c1 = S754_finite false m1 e -> Prim2SF c2 = S754_finite false m2 e ->
  (m1 < m2)%positive ->
  (x <? c1)%float = true -> (x <? c2)%float = true.
Proof.
  intros H1 H2 Hm H. rewrite FloatAxioms.ltb_spec in *. rewrite H1 in H. rewrite H2.
  unfold SFltb, SFcompare in *.
  destruct (Prim2SF x) as [s0|s0| |s0 m0 e0]; try discriminate; try exact H.
  destruct s0; [reflexivity|].
  destruct (Z.compare e0 e); try discriminate; try reflexivity.
  fold (Pos.compare m0 m1) in H. fold (Pos.compare m0 m2).
  destruct (Pos.compare m0 m1) eqn:E1; try discriminate.
  apply Pos.compare_lt_iff in E1.
  assert (E2 : (m0 < m2)%positive) by (eapply Pos.lt_trans; eassumption).
  apply Pos.compare_lt_iff in E2. rewrite E2. reflexivity.
Qed.

Lemma eqb_F1 x : (x =? F 1)%float = true -> x = F 1.
Proof. exact (eqb_finite_eq x (F 1) _ _ _ eq_refl). Qed.

Lemma eqb_F2 x : (x =? F 2)%float = true -> x = F 2.
Proof. exact (eqb_finite_eq x (F 2) _ _ _ eq_refl). Qed.

Lemma ltb_1944_1967 d : (d <? F 1944)%float = true -> (d <? F 1967)%float = true.
Proof. apply (ltb_finite_trans d (F 1944) (F 1967) _ _ _ eq_refl eq_refl). reflexivity. Qed.

Lemma ltb_1967_1994 d : (d <? F 1967)%float = true -> (d <? F 1994)%float = true.
Proof. apply (ltb_finite_trans d (F 1967) (F 1994) _ _ _ eq_refl eq_refl). reflexivity. Qed.

Lemma age_stratum_cases d :
  age_stratum d =
    if (d <? F 1944)%float then None
    else if (d <? F 1967)%float then Some (F 1)
    else if (d <? F 1994)%float then Some (F 0)
    else None.
Proof. reflexivity. Qed.

Lemma age_stratum_values d age :
  age_stratum d = Some age -> age = F 0 \/ age = F 1.
Proof.
  rewrite age_stratum_cases.
  destruct (d <? F 1944)%float; [discriminate|].
  destruct (d <? F 1967)%float; [intros [= <-]; now right|].
  destruct (d <? F 1994)%float; [intros [= <-]; now left|discriminate].
Qed.

Lemma age_stratum_band d :
  is_Some (age_stratum d) <->
  negb (d <? F 1944)%float && (d <? F 1994)%float = true.
Proof.
  rewrite age_stratum_cases.
  destruct (d <? F 1944)%float eqn:E1; simpl.
  - split; [intros [x Hx]; discriminate | discriminate].
  - destruct (d <? F 1967)%float eqn:E2.
    + rewrite (ltb_1967_1994 d E2). split; eauto.
    + destruct (d <? F 1994)%float; split; eauto; try discriminate.
      intros [x Hx]; discriminate.
Qed.

(** ** The stratum encoding *)

Lemma In_strata (s : Z) :
  1 <= s <= 32 -> In s (map Z.of_nat (seq 1 32)).
Proof.
  intros Hs. apply in_map_iff. exists (Z.to_nat s). split; [lia|].
  apply in_seq. lia.
Qed.

(** C8. For every key s from 1 to 32, the characteristics recovered by the
    header comment (female = (s-1) % 2, emprel = (s-1) / 2 % 2,
    age = (s-1) / 4 % 2, region = (s-1) / 8) are normalized and line 224
    encodes them back to s; and every normalized combination is encoded to a
    key from 1 to 32 from which it is recovered.  The two maps are inverse
    to each other: the encoding is a bijection from
    {0,1} x {0,1} x {0,1} x {0,1,2,3} onto {1,...,32}. *)
Theorem stratum_encoding_bijection :
  (forall s : Z, 1 <= s <= 32 ->
     exists female emprel age region,
       decode_wgtkey s = (female, emprel, age, region) /\
       normalized female emprel age region /\
       encode_stratum (F female) (F emprel) (F age) (F region) = Some s) /\
  (forall female emprel age region : Z,
     normalized female emprel age region ->
     exists s,
       encode_stratum (F female) (F emprel) (F age) (F region) = Some s /\
       1 <= s <= 32 /\
       decode_wgtkey s = (female, emprel, age, region)).
Proof.
  split.
  - intros s Hs. apply In_strata in Hs. simpl in Hs.
    repeat (destruct Hs as [<- | Hs];
            [ do 4 eexists; split; [vm_compute; reflexivity|];
              split; [unfold normalized; lia | vm_compute; reflexivity] | ]).
    contradiction.
  - intros f e a r (Hf & He & Ha & Hr).
    assert (Ef : f = 0 \/ f = 1) by lia.
    assert (Ee : e = 0 \/ e = 1) by lia.
    assert (Ea : a = 0 \/ a = 1) by lia.
    assert (Er : r = 0 \/ r = 1 \/ r = 2 \/ r = 3) by lia.
    destruct Ef as [-> | ->], Ee as [-> | ->], Ea as [-> | ->],
             Er as [-> | [-> | [-> | ->]]];
      eexists; (split; [vm_compute; reflexivity|]);
      (split; [lia | vm_compute; reflexivity]).
Qed.

Lemma stratum_encoding_bijection_witness :
  (exists female emprel age region,
     decode_wgtkey 10 = (female, emprel, age, region) /\
     normalized female emprel age region /\
     encode_stratum (F female) (F emprel) (F age) (F region) = Some 10) /\
  (exists s,
     encode_stratum (F 1) (F 0) (F 0) (F 1) = Some s /\ 1 <= s <= 32 /\
     decode_wgtkey s = (1, 0, 0, 1)).
Proof.
  split.
  - apply (proj1 stratum_encoding_bijection 10). lia.
  - apply (proj2 stratum_encoding_bijection 1 0 0 1). unfold normalized. lia.
Defined.

(** ** The record classification *)

Lemma stratum_value_None dobyy region emprel female :
  stratum_value dobyy region emprel female = None <->
  ((female =? F 1)%float || (female =? F 2)%float)
  && (negb (dobyy <? F 1944)%float && (dobyy <? F 1994)%float)
  && negb (region <? F 0)%float
  && negb (emprel =? F (-1))%float = false.
Proof.
  unfold stratum_value.
  destruct (age_stratum dobyy) as [age|] eqn:Ea.
  - assert (Hb : negb (dobyy <? F 1944)%float && (dobyy <? F 1994)%float = true)
      by (apply age_stratum_band; eauto).
    rewrite Hb.
    destruct (female =? F 1)%float, (female =? F 2)%float,
             (region <? F 0)%float, (emprel =? F (-1))%float;
      simpl; split; congruence.
  - assert (Hb : negb (dobyy <? F 1944)%float && (dobyy <? F 1994)%float = false).
    { destruct (negb (dobyy <? F 1944)%float && (dobyy <? F 1994)%float) eqn:E;
        [|reflexivity].
      apply age_stratum_band in E. destruct E as [x Hx]. congruence. }
    rewrite Hb.
    destruct (female =? F 1)%float, (female =? F 2)%float;
      simpl; split; congruence.
Qed.

Lemma classify_Excluded insur female dobyy region emprel :
  classify insur female dobyy region emprel = Excluded <->
  five_checks insur female dobyy region emprel = false.
Proof.
  unfold classify, five_checks.
  pose proof (stratum_value_None dobyy region emprel female) as HN.
  destruct (insur =? F 1)%float; simpl; [|split; reflexivity].
  rewrite <- !andb_assoc in *. rewrite <- HN.
  destruct (stratum_value dobyy region emprel female) as [x|]; simpl.
  - destruct (float_to_int x); split; discriminate.
  - split; reflexivity.
Qed.

Lemma five_checks_stratum_value insur female dobyy region emprel :
  five_checks insur female dobyy region emprel = true ->
  exists age,
    age_stratum dobyy = Some age /\
    stratum_value dobyy region emprel female =
      Some (F 1 + (female - F 1) + F 2 * (emprel - F 1) + F 4 * age
            + F 8 * (region - F 1))%float.
Proof.
  unfold five_checks. intros H.
  apply andb_prop in H as [H Hemp]. apply andb_prop in H as [H Hreg].
  apply andb_prop in H as [H Hband]. apply andb_prop in H as [_ Hsex].
  apply age_stratum_band in Hband. destruct Hband as [age Hage].
  exists age. split; [exact Hage|].
  unfold stratum_value. rewrite Hage.
  apply negb_true_iff in Hreg, Hemp. rewrite Hreg, Hemp.
  destruct (female =? F 1)%float, (female =? F 2)%float; try discriminate; reflexivity.
Qed.

(** C1 (as amended). The classifier excludes a record if and only if one of
    the five checks fails (insurance is 1, sex is 1 or 2, birth year from
    1944 up to 1994, region not below 0, employment relation not -1).  When
    all five pass it assigns the stratum
    int(1 + (sex-1) + 2*(emprel-1) + 4*age + 8*(region-1)), and this lies in
    [1,32] whenever, in addition, the region code is one of 1, 2, 3, 4 and
    the employment-relation code is 1 or 2. *)
Theorem classify_five_checks insur female dobyy region emprel :
  (classify insur female dobyy region emprel = Excluded <->
   five_checks insur female dobyy region emprel = false) /\
  (five_checks insur female dobyy region emprel = true ->
   exists age,
     age_stratum dobyy = Some age /\
     classify insur female dobyy region emprel =
       verdict_of (Some (F 1 + (female - F 1) + F 2 * (emprel - F 1) + F 4 * age
                         + F 8 * (region - F 1))%float) /\
     (In region [F 1; F 2; F 3; F 4] -> In emprel [F 1; F 2] ->
      exists s, classify insur female dobyy region emprel = Stratum s /\ 1 <= s <= 32)).
Proof.
  split; [apply classify_Excluded|].
  intros H5. destruct (five_checks_stratum_value _ _ _ _ _ H5) as (age & Hage & Hv).
  assert (Hc : classify insur female dobyy region emprel =
               verdict_of (stratum_value dobyy region emprel female)).
  { unfold classify. unfold five_checks in H5. rewrite !andb_true_iff in H5.
    destruct H5 as [[[[-> _] _] _] _]. reflexivity. }
  exists age. split; [exact Hage|]. split; [now rewrite Hc, Hv|].
  intros Hreg Hemp. rewrite Hc, Hv.
  assert (Hsex : female = F 1 \/ female = F 2).
  { unfold five_checks in H5. rewrite !andb_true_iff, orb_true_iff in H5.
    destruct H5 as [[[[_ [E|E]] _] _] _];
      [left; now apply eqb_F1 | right; now apply eqb_F2]. }
  apply age_stratum_values in Hage.
  simpl in Hreg, Hemp.
  destruct Hsex as [-> | ->], Hage as [-> | ->],
           Hreg as [<- | [<- | [<- | [<- | []]]]], Hemp as [<- | [<- | []]];
    eexists; (split; [vm_compute; reflexivity | lia]).
Qed.

Lemma classify_five_checks_witness :
  exists s, classify (F 1) (F 2) (F 1980) (F 2) (F 1) = Stratum s /\ 1 <= s <= 32.
Proof.
  destruct (proj2 (classify_five_checks (F 1) (F 2) (F 1980) (F 2) (F 1)) eq_refl)
    as (age & _ & _ & H).
  apply H; simpl; auto.
Defined.

(** C1 (as stated) fails: the record with insurance 1, sex 1, birth year
    1980, region 1 and employment relation 0 passes the five checks and is
    given the stratum -1. *)
Lemma classify_passing_record_outside :
  five_checks (F 1) (F 1) (F 1980) (F 1) (F 0) = true /\
  classify (F 1) (F 1) (F 1980) (F 1) (F 0) = Stratum (-1) /\
  ~ (forall insur female dobyy region emprel,
       (exists s, classify insur female dobyy region emprel = Stratum s /\ 1 <= s <= 32)
       <-> five_checks insur female dobyy region emprel = true).
Proof.
  assert (H5 : five_checks (F 1) (F 1) (F 1980) (F 1) (F 0) = true) by reflexivity.
  assert (Hc : classify (F 1) (F 1) (F 1980) (F 1) (F 0) = Stratum (-1))
    by (vm_compute; reflexivity).
  split; [exact H5|]. split; [exact Hc|].
  intros H. apply H in H5. destruct H5 as (s & Hs & Hr).
  rewrite Hc in Hs. injection Hs as <-. lia.
Qed.

(** A record that is given a stratum has a birth year with an age stratum. *)
Lemma record_age_stratum ParseFloat year ys vdef line stratum wgt :
  record ParseFloat year ys vdef line = Ok (Some (stratum, wgt)) ->
  exists dobyy age,
    ext ParseFloat vdef line "DOBYY" = Ok dobyy /\ age_stratum dobyy = Some age.
Proof.
  unfold record.
  destruct (ext ParseFloat vdef line ("PEGJA" ++ ys)) as [insur|]; [|discriminate].
  cbn [bind]. destruct (negb (insur =? F 1)%float); [discriminate|].
  destruct (ext ParseFloat vdef line "DOBYY") as [dobyy|]; [|discriminate].
  cbn [bind]. destruct (ext ParseFloat vdef line ("REGION" ++ ys)) as [region|];
    [|discriminate].
  cbn [bind]. destruct (ext ParseFloat vdef line (default "" (wgtvar !! year))) as [w|];
    [|discriminate].
  cbn [bind]. destruct (ext ParseFloat vdef line ("HPEJA" ++ ys)) as [emprel|];
    [|discriminate].
  cbn [bind]. destruct (ext ParseFloat vdef line "SEX") as [female|]; [|discriminate].
  cbn [bind]. unfold stratum_value.
  destruct (negb (female =? F 1)%float && negb (female =? F 2)%float); [discriminate|].
  destruct (age_stratum dobyy) as [age|] eqn:Ea; [|discriminate].
  intros _. exists dobyy, age. split; [reflexivity | exact Ea].
Qed.

(** C2 (as amended). For every year processed the age cutoffs are the same
    constants, those of the reference year 2009: a birth year below
    1944 = 2009 - 65 is too old, below 1967 = 2012 - 45 gives age stratum 1,
    below 1994 = 2012 - 18 gives age stratum 0, and otherwise the record is
    too young.  So in every year a record is given a stratum only if its
    birth year is in the band of the reference year 2009. *)
Theorem age_cutoffs_fixed :
  (forall dobyy, age_stratum dobyy = age_stratum_spec 2009 dobyy) /\
  (forall dobyy,
     age_stratum dobyy =
       if (dobyy <? F 1944)%float then None
       else if (dobyy <? F 1967)%float then Some (F 1)
       else if (dobyy <? F 1994)%float then Some (F 0)
       else None) /\
  (forall ParseFloat year ys vdef line stratum wgt,
     record ParseFloat year ys vdef line = Ok (Some (stratum, wgt)) ->
     exists dobyy age,
       ext ParseFloat vdef line "DOBYY" = Ok dobyy /\
       age_stratum_spec 2009 dobyy = Some age).
Proof.
  split; [reflexivity|]. split; [reflexivity|].
  intros ParseFloat year ys vdef line stratum wgt H.
  destruct (record_age_stratum _ _ _ _ _ _ _ H) as (dobyy & age & He & Ha).
  exists dobyy, age. split; [exact He | exact Ha].
Qed.

Lemma age_cutoffs_fixed_witness :
  record parse_integer 2015 "15" vdef_2015 "0000000301021194504000250" = Ok (Some (31, F 250))
  /\ exists dobyy age,
       ext parse_integer vdef_2015 "0000000301021194504000250" "DOBYY" = Ok dobyy /\
       age_stratum_spec 2009 dobyy = Some age.
Proof.
  assert (H : record parse_integer 2015 "15" vdef_2015 "0000000301021194504000250"
              = Ok (Some (31, F 250))) by (vm_compute; reflexivity).
  split; [exact H|].
  exact (proj2 (proj2 age_cutoffs_fixed) _ _ _ _ _ _ _ H).
Defined.

(** C2 (as stated) fails: in the year 2015 a person born in 1945 is below
    2015 - 65 = 1950, too old by the stated rule, but the code gives the age
    stratum 1. *)
Lemma age_cutoffs_not_from_year :
  age_stratum (F 1945) = Some (F 1) /\
  age_stratum_spec 2015 (F 1945) = None /\
  ~ (forall year dobyy, 2009 <= year <= 2015 ->
       age_stratum dobyy = age_stratum_spec year dobyy).
Proof.
  split; [reflexivity|]. split; [reflexivity|].
  intros H. specialize (H 2015 (F 1945) ltac:(lia)). discriminate H.
Qed.

(** C5. The employment-relation test is made on the raw decoded value: a
    record that reaches it (sex, age and region tests passed) is excluded
    exactly when the raw value equals -1, and otherwise 1 is subtracted and
    the result enters the stratum; the raw value 0 is not excluded and is
    normalized to -1. *)
Theorem emprel_checked_before_normalization dobyy region emprel female age :
  ((female =? F 1) || (female =? F 2))%float = true ->
  age_stratum dobyy = Some age ->
  (region <? F 0)%float = false ->
  stratum_value dobyy region emprel female =
    (if (emprel =? F (-1))%float then None
     else Some (F 1 + (female - F 1) + F 2 * (emprel - F 1) + F 4 * age
                + F 8 * (region - F 1))%float) /\
  (stratum_value dobyy region emprel female = None <-> (emprel =? F (-1))%float = true) /\
  stratum_value dobyy region (F 0) female =
    Some (F 1 + (female - F 1) + F 2 * F (-1) + F 4 * age + F 8 * (region - F 1))%float.
Proof.
  intros Hsex Hage Hreg.
  assert (Hv : forall e, stratum_value dobyy region e female =
    (if (e =? F (-1))%float then None
     else Some (F 1 + (female - F 1) + F 2 * (e - F 1) + F 4 * age
                + F 8 * (region - F 1))%float)).
  { intros e. unfold stratum_value. rewrite Hage, Hreg.
    destruct (female =? F 1)%float, (female =? F 2)%float; try discriminate; reflexivity. }
  split; [apply Hv|]. split.
  - rewrite Hv. destruct (emprel =? F (-1))%float; split; congruence.
  - rewrite Hv. reflexivity.
Qed.

Lemma emprel_checked_before_normalization_witness :
  stratum_value (F 1980) (F 2) (F 0) (F 2) = Some (F 8) /\
  stratum_value (F 1980) (F 2) (F (-1)) (F 2) = None.
Proof.
  pose proof (emprel_checked_before_normalization (F 1980) (F 2) (F 0) (F 2) (F 0)
                eq_refl eq_refl eq_refl) as (H & _ & _).
  pose proof (emprel_checked_before_normalization (F 1980) (F 2) (F (-1)) (F 2) (F 0)
                eq_refl eq_refl eq_refl) as (H' & _ & _).
  split; [exact H | exact H'].
Defined.

(** ** getvinf *)

Lemma len_nonneg s : 0 <= len s.
Proof. unfold len. lia. Qed.

Lemma prefix_len p s : String.prefix p s = true -> len p <= len s.
Proof.
  unfold len. revert s. induction p as [|a p IH]; intros s H; [simpl; lia|].
  destruct s as [|b s]; simpl in H; [discriminate|].
  destruct (ascii_dec a b); [|discriminate].
  apply IH in H. simpl. lia.
Qed.

Lemma Contains_len s sub : Contains s sub = true -> len sub <= len s.
Proof.
  induction s as [|a s IH]; cbn [Contains]; intros H.
  - rewrite orb_false_r in H. now apply prefix_len in H.
  - apply orb_true_iff in H. destruct H as [H|H].
    + now apply prefix_len in H.
    + apply IH in H. unfold len in *. simpl. lia.
Qed.

Lemma slice_tail_ok line :
  5 <= len line ->
  slice line 5 (len line) = Ok (substring 5 (Z.to_nat (len line - 5)) line).
Proof.
  intros H. unfold slice.
  replace ((0 <=? 5) && (5 <=? len line) && (len line <=? len line)) with true; [reflexivity|].
  symmetry. rewrite !andb_true_iff, !Z.leb_le. lia.
Qed.

Lemma slice_tail_short line :
  len line < 5 ->
  slice line 5 (len line) = Panic (SliceOutOfRange 5 (len line) (len line)).
Proof.
  intros H. unfold slice.
  replace (5 <=? len line) with false; [reflexivity|].
  symmetry. apply Z.leb_gt. lia.
Qed.

Lemma good_line_iff line :
  good_line line = true <->
  5 <= len line /\
  is_ok (process ∅ (substring 5 (Z.to_nat (len line - 5)) line)) = true.
Proof.
  unfold good_line. destruct (Z_lt_le_dec (len line) 5) as [Hs|Hl].
  - rewrite slice_tail_short by exact Hs. simpl. split; [discriminate | lia].
  - rewrite slice_tail_ok by exact Hl. simpl. split; [auto | tauto].
Qed.

(** Whether [process] fails does not depend on the map it updates. *)
Lemma process_is_ok vdef line : is_ok (process vdef line) = is_ok (process ∅ line).
Proof.
  unfold process.
  destruct (index (Fields line) 1); simpl; [|reflexivity].
  destruct (index (Fields line) 0); simpl; [|reflexivity].
  destruct (Atoi _); simpl; [|reflexivity].
  destruct (index (Fields line) 2); simpl; [|reflexivity].
  destruct (Atoi _); reflexivity.
Qed.

Lemma Split_head_id w : Contains w "." = false -> Split_head w "." = w.
Proof.
  induction w as [|a w IH]; [reflexivity|].
  cbn [Contains Split_head String.prefix].
  intros H. apply orb_false_iff in H. destruct H as [Hp Hc].
  destruct (Ascii.eqb a ".") eqn:E.
  - apply Ascii.eqb_eq in E. subst a.
    destruct (ascii_dec "." "."); [destruct w; discriminate | congruence].
  - now rewrite IH.
Qed.

(** The width token as [process] reads it: without leading dollar signs,
    and cut at the first decimal point. *)
Lemma width_part w :
  (if Contains w "." then Split_head w "." else w) = Split_head w ".".
Proof.
  destruct (Contains w ".") eqn:E; [reflexivity|]. symmetry. now apply Split_head_id.
Qed.

Lemma process_tokens vdef line :
  process vdef line =
    match Fields line with
    | tok0 :: vname :: rest =>
        let* ipos := Atoi (TrimLeft tok0 "@") in
        let* tok2 := index (tok0 :: vname :: rest) 2 in
        let* iw := Atoi (Split_head (TrimLeft tok2 "$") ".") in
        Ok (<[vname := (wrap64 (ipos - 1), iw)]> vdef)
    | toks => Panic (IndexOutOfRange 1 (Z.of_nat (length toks)))
    end.
Proof.
  unfold process.
  destruct (Fields line) as [|tok0 [|vname rest]]; try reflexivity.
  cbn [index lookup list_lookup bind].
  destruct (Atoi (TrimLeft tok0 "@")); [|reflexivity].
  cbn [bind]. destruct rest as [|tok2 rest]; [reflexivity|].
  cbn. now rewrite width_part.
Qed.

Lemma Atoi_in_int64 s v : Atoi s = Ok v -> in_int64 v = true.
Proof.
  unfold Atoi.
  destruct (match s with
            | String "-"%char r => (true, r)
            | String "+"%char r => (false, r)
            | _ => (false, s)
            end) as [neg body].
  destruct body; [discriminate|].
  destruct (digits_val 0 _); [|discriminate].
  destruct (in_int64 _) eqn:E; [|discriminate].
  now intros [= <-].
Qed.

Lemma wrap64_pred v : in_int64 v = true -> - 2 ^ 63 < v -> wrap64 (v - 1) = v - 1.
Proof.
  unfold in_int64, wrap64. rewrite andb_true_iff, Z.leb_le, Z.ltb_lt.
  intros [H1 H2] H3.
  rewrite Z.mod_small by lia. lia.
Qed.

Lemma is_ok_false {A : Type} (r : result A) : is_ok r = false -> exists e, r = Panic e.
Proof. destruct r as [a|e]; [discriminate | eauto]. Qed.

Lemma process_ok_iff vdef line :
  is_ok (process vdef line) = true <->
  exists tok0 vname tok2 rest ipos iw,
    Fields line = tok0 :: vname :: tok2 :: rest /\
    Atoi (TrimLeft tok0 "@") = Ok ipos /\
    Atoi (Split_head (TrimLeft tok2 "$") ".") = Ok iw.
Proof.
  rewrite process_tokens. split.
  - destruct (Fields line) as [|tok0 [|vname [|tok2 rest]]]; try discriminate.
    + destruct (Atoi (TrimLeft tok0 "@")); discriminate.
    + cbn. destruct (Atoi (TrimLeft tok0 "@")) as [ipos|] eqn:E0; [|discriminate].
      cbn. destruct (Atoi (Split_head (TrimLeft tok2 "$") ".")) as [iw|] eqn:E2;
        [|discriminate].
      intros _. exists tok0, vname, tok2, rest, ipos, iw. auto.
  - intros (tok0 & vname & tok2 & rest & ipos & iw & -> & E0 & E2).
    cbn. rewrite E0. cbn. rewrite E2. reflexivity.
Qed.

Lemma initial_section_no_marker vdef pre rest :
  Forall (fun line => Contains line "INPUT @1" = false) pre ->
  initial_section vdef (pre ++ rest) = initial_section vdef rest.
Proof.
  induction 1 as [|line pre Hline _ IH]; [reflexivity|].
  cbn [app initial_section]. now rewrite Hline.
Qed.

Lemma initial_section_marker vdef m body :
  Contains m "INPUT @1" = true ->
  initial_section vdef (m :: body) =
    let* v := process vdef (substring 5 (Z.to_nat (len m - 5)) m) in Ok (v, Broke body).
Proof.
  intros Hm. cbn [initial_section]. rewrite Hm.
  apply Contains_len in Hm. change (len "INPUT @1") with 8 in Hm.
  rewrite slice_tail_ok by lia. reflexivity.
Qed.

Lemma field_section_step vdef line rest :
  HasPrefix line ";" = false ->
  field_section vdef (line :: rest) =
    if len line <? 5 then Panic (SliceOutOfRange 5 (len line) (len line))
    else
      let* v := process vdef (substring 5 (Z.to_nat (len line - 5)) line) in
      field_section v rest.
Proof.
  intros Hp. cbn [field_section]. rewrite Hp.
  destruct (len line <? 5) eqn:E.
  - apply Z.ltb_lt in E. now rewrite slice_tail_short.
  - apply Z.ltb_ge in E. now rewrite slice_tail_ok.
Qed.

Lemma field_section_is_ok vdef lines :
  is_ok (field_section vdef lines) = forallb good_line (before_terminator lines).
Proof.
  revert vdef. induction lines as [|line rest IH]; intros vdef; [reflexivity|].
  cbn [field_section before_terminator].
  destruct (HasPrefix line ";"); [reflexivity|].
  cbn [forallb]. unfold good_line.
  destruct (slice line 5 (len line)) as [s|e]; [|reflexivity].
  cbn [bind]. rewrite <- (process_is_ok vdef).
  destruct (process vdef s) as [v|e]; [|reflexivity].
  cbn [bind is_ok andb]. apply IH.
Qed.

Lemma field_section_exit vdef lines v e :
  field_section vdef lines = Ok (v, e) ->
  terminated lines = match e with Broke _ => true | Exhausted => false end.
Proof.
  revert vdef. induction lines as [|line rest IH]; intros vdef.
  - intros [= <- <-]. reflexivity.
  - cbn [field_section terminated existsb].
    destruct (HasPrefix line ";"); [intros [= <- <-]; reflexivity|].
    destruct (slice line 5 (len line)) as [s|]; [|discriminate].
    cbn [bind]. destruct (process vdef s) as [v'|]; [|discriminate].
    cbn [bind orb]. apply IH.
Qed.

Lemma field_section_break (lines : list string) : forall vdef v rest,
  field_section vdef lines = Ok (v, Broke rest) ->
  length lines = (length (before_terminator lines) + 1 + length rest)%nat.
Proof.
  induction lines as [|line tl IH]; intros vdef v rest;
    cbn [field_section before_terminator].
  - discriminate.
  - destruct (HasPrefix line ";"); [intros [= <- <-]; reflexivity|].
    destruct (slice line 5 (len line)) as [s|]; [|discriminate].
    cbn [bind]. destruct (process vdef s) as [v'|]; [|discriminate].
    cbn [bind]. intros H. apply IH in H. cbn [length]. lia.
Qed.

(** The lines of the statements file decide the result of the two loops. *)
Lemma scan_vinf_no_marker lines err noticed :
  Forall (fun line => Contains line "INPUT @1" = false) lines ->
  scan_vinf (Scanner lines err) noticed =
    match err with Some e => Panic e | None => Ok ∅ end.
Proof.
  intros H. unfold scan_vinf. cbn [sc_lines].
  assert (E : initial_section ∅ lines = Ok (∅, Exhausted)).
  { induction H as [|line rest Hline _ IH]; [reflexivity|].
    cbn [initial_section]. now rewrite Hline. }
  rewrite E. cbn. destruct err; reflexivity.
Qed.

Lemma Err_no_error lines noticed e : Err (Scanner lines None) noticed e = None.
Proof.
  destruct e as [rest|]; cbn [Err sc_err]; [|reflexivity].
  now destruct (noticed <? length (sc_lines (Scanner lines None)) - length rest)%nat.
Qed.

Lemma Err_break (pre : list string) line rest err noticed :
  Err (Scanner (pre ++ line :: rest) err) noticed (Broke rest) =
    if (noticed <=? length pre)%nat then err else None.
Proof.
  cbn [Err sc_lines sc_err]. rewrite length_app. cbn [length].
  replace (length pre + S (length rest) - length rest)%nat with (S (length pre)) by lia.
  destruct (Nat.ltb_spec noticed (S (length pre))), (Nat.leb_spec noticed (length pre));
    try reflexivity; lia.
Qed.

Lemma scan_vinf_marker (pre : list string) m body err noticed :
  Forall (fun line => Contains line "INPUT @1" = false) pre ->
  Contains m "INPUT @1" = true ->
  is_ok (scan_vinf (Scanner (pre ++ m :: body) err) noticed) =
    good_line m && forallb good_line (before_terminator body)
    && (bool_decide (err = None)
        || (terminated body
            && (length pre + 1 + length (before_terminator body) <? noticed)%nat)).
Proof.
  intros Hpre Hm. unfold scan_vinf. cbn [sc_lines].
  rewrite initial_section_no_marker by exact Hpre.
  cbn [initial_section]. rewrite Hm. unfold good_line at 1.
  destruct (slice m 5 (len m)) as [s|]; [|reflexivity].
  cbn [bind].
  destruct (process ∅ s) as [v|]; [|reflexivity].
  cbn [bind unscanned is_ok andb].
  rewrite <- (field_section_is_ok v body).
  destruct err as [e|].
  - (* the text has a read error *)
    rewrite Err_break. cbn [orb].
    replace (bool_decide (Some e = None)) with false
      by (symmetry; now apply bool_decide_eq_false).
    cbn [orb].
    destruct (Nat.leb_spec noticed (length pre)) as [Hn|Hn].
    + replace (length pre + 1 + length (before_terminator body) <? noticed)%nat
        with false by (symmetry; apply Nat.ltb_ge; lia).
      now rewrite !andb_false_r.
    + destruct (field_section v body) as [[v' e2]|] eqn:E2; [|reflexivity].
      cbn [bind is_ok andb]. rewrite (field_section_exit _ _ _ _ E2).
      destruct e2 as [rest|]; [|reflexivity].
      pose proof (field_section_break _ _ _ _ E2) as Hlen.
      cbn [Err sc_lines sc_err andb]. rewrite length_app. cbn [length].
      destruct (Nat.ltb_spec noticed (length pre + S (length body) - length rest)),
               (Nat.ltb_spec (length pre + 1 + length (before_terminator body)) noticed);
        try reflexivity; lia.
  - (* no read error *)
    rewrite Err_no_error.
    destruct (field_section v body) as [[v' e2]|]; [|reflexivity].
    cbn [bind]. rewrite Err_no_error. cbn [is_ok andb].
    replace (bool_decide (@None error = None)) with true
      by (symmetry; now apply bool_decide_eq_true).
    reflexivity.
Qed.

Lemma getvinf_open fs year f :
  fs (layout_path year) = Ok f -> getvinf fs year = scan_vinf (f_text f) (f_noticed f).
Proof. intros H. unfold getvinf, os_Open. now rewrite H. Qed.

Lemma getvinf_open_error fs year e :
  fs (layout_path year) = Panic e -> getvinf fs year = Panic e.
Proof. intros H. unfold getvinf, os_Open. now rewrite H. Qed.

(** C7. For a line of three tokens, [process] removes the leading [@]
    characters of the position token and the leading [$] characters of the
    width token, cuts the width token at its first decimal point, reads both
    as integers (a token that is not an integer is a panic), subtracts 1
    from the position, and stores name -> (position, width) in the map,
    replacing an entry of the same name and leaving the other names as they
    were; the line "@10 FOO $5" gives FOO -> (9, 5). *)
Theorem process_three_tokens vdef line tok0 vname tok2 :
  Fields line = [tok0; vname; tok2] ->
  process vdef line =
    (let* ipos := Atoi (TrimLeft tok0 "@") in
     let* iw := Atoi (Split_head (TrimLeft tok2 "$") ".") in
     Ok (<[vname := (wrap64 (ipos - 1), iw)]> vdef)) /\
  (forall ipos iw,
     Atoi (TrimLeft tok0 "@") = Ok ipos ->
     Atoi (Split_head (TrimLeft tok2 "$") ".") = Ok iw ->
     - 2 ^ 63 < ipos ->
     exists vdef',
       process vdef line = Ok vdef' /\
       vdef' !! vname = Some (ipos - 1, iw) /\
       forall other, other <> vname -> vdef' !! other = vdef !! other) /\
  process vdef "@10 FOO $5" = Ok (<["FOO" := (9, 5)]> vdef).
Proof.
  intros Htoks.
  assert (Heq : process vdef line =
    (let* ipos := Atoi (TrimLeft tok0 "@") in
     let* iw := Atoi (Split_head (TrimLeft tok2 "$") ".") in
     Ok (<[vname := (wrap64 (ipos - 1), iw)]> vdef))).
  { rewrite process_tokens, Htoks. cbn.
    destruct (Atoi (TrimLeft tok0 "@")); reflexivity. }
  split; [exact Heq|]. split.
  - intros ipos iw H0 H2 Hmin. rewrite Heq, H0. cbn. rewrite H2. cbn.
    rewrite (wrap64_pred ipos (Atoi_in_int64 _ _ H0) Hmin).
    eexists. split; [reflexivity|]. split.
    + apply lookup_insert_eq.
    + intros other Hne. apply lookup_insert_ne. congruence.
  - rewrite process_tokens. reflexivity.
Qed.

Lemma process_three_tokens_witness :
  process {[ "FOO" := (0, 1) ]} "@@10 FOO $$5.2" =
    Ok (<["FOO" := (9, 5)]> {[ "FOO" := (0, 1) ]}).
Proof.
  destruct (process_three_tokens {[ "FOO" := (0, 1) ]} "@@10 FOO $$5.2"
              "@@10" "FOO" "$$5.2" eq_refl) as (H & _ & _).
  rewrite H. reflexivity.
Defined.

(** C3 (as amended). [getvinf] fails exactly in these cases: the statements
    file cannot be opened; the scanner reports a read error when a loop is
    left, which is when the lines run out with a read error before a line
    that starts with a semicolon follows the marker, or when the scanner had
    already recorded a read error as it yielded that line; or one of the
    lines it processes (the marker line, and each line after it up to the
    first one that starts with a semicolon) is not a good line.  A good line
    has at least five bytes, and what follows them has at least three fields
    of which the first without leading [@] and the third without leading [$]
    and cut at its first decimal point are integers.  When no line holds the
    marker and the lines run out without a read error, it returns the empty
    map. *)
Theorem getvinf_failures fs year :
  (forall e, fs (layout_path year) = Panic e -> getvinf fs year = Panic e) /\
  (forall f lines err,
     fs (layout_path year) = Ok f -> f_text f = Scanner lines err ->
     (Forall (fun line => Contains line "INPUT @1" = false) lines ->
      getvinf fs year = match err with Some e => Panic e | None => Ok ∅ end) /\
     (forall (pre : list string) m body,
        lines = (pre ++ m :: body)%list ->
        Forall (fun line => Contains line "INPUT @1" = false) pre ->
        Contains m "INPUT @1" = true ->
        is_ok (getvinf fs year) =
          good_line m && forallb good_line (before_terminator body)
          && (bool_decide (err = None)
              || (terminated body
                  && (length pre + 1 + length (before_terminator body)
                      <? f_noticed f)%nat)))) /\
  (forall line,
     good_line line = true <->
     5 <= len line /\
     exists tok0 vname tok2 rest ipos iw,
       Fields (substring 5 (Z.to_nat (len line - 5)) line) = tok0 :: vname :: tok2 :: rest /\
       Atoi (TrimLeft tok0 "@") = Ok ipos /\
       Atoi (Split_head (TrimLeft tok2 "$") ".") = Ok iw).
Proof.
  split; [apply getvinf_open_error|]. split.
  - intros f lines err Hf Ht. rewrite (getvinf_open _ _ _ Hf), Ht. split.
    + apply scan_vinf_no_marker.
    + intros pre m body -> Hpre Hm. now apply scan_vinf_marker.
  - intros line. rewrite good_line_iff, process_ok_iff. reflexivity.
Qed.

Lemma getvinf_failures_witness :
  is_ok (getvinf (fs_2009 (Scanner layout_2009 None) None) 2009) = true /\
  is_ok (getvinf (fs_2009 (Scanner (layout_2009 ++ ["@30"])%list None) None) 2009) = true /\
  is_ok (getvinf (fs_2009 (Scanner (firstn 5 layout_2009 ++ ["     @30 X"])%list None) None) 2009)
    = false /\
  getvinf (fs_2009 (Scanner ["RUN;"] (Some (ReadError "unexpected EOF"))) None) 2009
    = Panic (ReadError "unexpected EOF") /\
  is_ok (getvinf (fs_layout (Scanner (firstn 10 layout_2009)
                               (Some (ReadError "unexpected EOF"))) 10) 2009) = true /\
  is_ok (getvinf (fs_layout (Scanner (firstn 10 layout_2009)
                               (Some (ReadError "unexpected EOF"))) 9) 2009) = false.
Proof.
  pose (ok := fun lines err => proj1 (proj2 (getvinf_failures
                (fs_2009 (Scanner lines err) None) 2009)) _ lines err eq_refl eq_refl).
  pose (late := fun lines err n => proj1 (proj2 (getvinf_failures
                (fs_layout (Scanner lines err) n) 2009)) _ lines err eq_refl eq_refl).
  split; [|split; [|split; [|split; [|split]]]].
  - rewrite (proj2 (ok layout_2009 None) (firstn 2 layout_2009) _ _ eq_refl);
      [reflexivity | repeat constructor | reflexivity].
  - rewrite (proj2 (ok (layout_2009 ++ ["@30"])%list None) (firstn 2 layout_2009) _ _ eq_refl);
      [reflexivity | repeat constructor | reflexivity].
  - rewrite (proj2 (ok (firstn 5 layout_2009 ++ ["     @30 X"])%list None)
               (firstn 2 layout_2009) _ _ eq_refl);
      [reflexivity | repeat constructor | reflexivity].
  - apply (proj1 (ok ["RUN;"] (Some (ReadError "unexpected EOF")))).
    repeat constructor.
  - rewrite (proj2 (late (firstn 10 layout_2009) (Some (ReadError "unexpected EOF")) 10%nat)
               (firstn 2 layout_2009) _ _ eq_refl);
      [reflexivity | repeat constructor | reflexivity].
  - rewrite (proj2 (late (firstn 10 layout_2009) (Some (ReadError "unexpected EOF")) 9%nat)
               (firstn 2 layout_2009) _ _ eq_refl);
      [reflexivity | repeat constructor | reflexivity].
Defined.

(** C3 (as stated) fails: a statements file without the marker, here with
    the two lines "DATA WORK.H129;" and "RUN;", is read without failure and
    gives the empty map. *)
Lemma getvinf_without_marker_returns :
  Forall (fun line => Contains line "INPUT @1" = false) ["DATA WORK.H129;"; "RUN;"] /\
  getvinf (fs_2009 (Scanner ["DATA WORK.H129;"; "RUN;"] None) None) 2009 = Ok ∅.
Proof. split; [repeat constructor | vm_compute; reflexivity]. Qed.

(** C10. [getvinf] drops the first five bytes of the marker line and of
    every line after it up to the terminator, and gives the rest to
    [process]; a line there with fewer than five bytes is neither parsed nor
    skipped: the slice expression panics, so the extraction fails whenever
    such a line stands between the marker and the terminator. *)
Theorem short_descriptor_line_fatal fs year f (pre : list string) m body err short :
  fs (layout_path year) = Ok f ->
  f_text f = Scanner (pre ++ m :: body)%list err ->
  Forall (fun line => Contains line "INPUT @1" = false) pre ->
  Contains m "INPUT @1" = true ->
  In short (before_terminator body) ->
  len short < 5 ->
  (exists e, getvinf fs year = Panic e) /\
  (forall vdef,
     initial_section vdef (pre ++ m :: body)%list =
       let* v := process vdef (substring 5 (Z.to_nat (len m - 5)) m) in
       Ok (v, Broke body)) /\
  (forall vdef line rest,
     HasPrefix line ";" = false ->
     field_section vdef (line :: rest) =
       if len line <? 5 then Panic (SliceOutOfRange 5 (len line) (len line))
       else
         let* v := process vdef (substring 5 (Z.to_nat (len line - 5)) line) in
         field_section v rest).
Proof.
  intros Hf Ht Hpre Hm Hin Hshort. split; [|split].
  - apply is_ok_false. rewrite (getvinf_open _ _ _ Hf), Ht.
    rewrite (scan_vinf_marker _ _ _ _ _ Hpre Hm).
    assert (Hbad : forallb good_line (before_terminator body) = false).
    { destruct (forallb good_line (before_terminator body)) eqn:E; [|reflexivity].
      rewrite forallb_forall in E. apply E in Hin.
      apply good_line_iff in Hin. lia. }
    rewrite Hbad. now rewrite andb_false_r.
  - intros vdef. rewrite (initial_section_no_marker _ _ _ Hpre).
    now apply initial_section_marker.
  - intros vdef line rest. apply field_section_step.
Qed.

Lemma short_descriptor_line_fatal_witness :
  exists e,
    getvinf (fs_2009 (Scanner (firstn 5 layout_2009 ++ [""; "     @13 SEX 1.0"; ";"])%list None)
               None) 2009 = Panic e.
Proof.
  refine (proj1 (short_descriptor_line_fatal
            (fs_2009 (Scanner (firstn 5 layout_2009 ++ [""; "     @13 SEX 1.0"; ";"])%list None)
               None) 2009 _
            (firstn 2 layout_2009) "INPUT @1 DUPERSID $8.0"
            ["     @9 PEGJA09 2.0"; "     @11 HPEJA09 2.0"; ""; "     @13 SEX 1.0"; ";"]
            None "" eq_refl eq_refl _ eq_refl _ _)).
  - repeat constructor.
  - simpl. auto.
  - reflexivity.
Defined.

(** ** getpopw *)

Lemma record_uninsured ParseFloat year ys vdef line insur :
  ext ParseFloat vdef line ("PEGJA" ++ ys) = Ok insur ->
  (insur =? F 1)%float = false ->
  record ParseFloat year ys vdef line = Ok None.
Proof. intros He Hi. unfold record. rewrite He. cbn [bind]. now rewrite Hi. Qed.

(** C9. A record whose insurance field decodes to a value other than 1 is
    left out at line 185, before any other field is decoded: the loop
    body ends without a panic, the loop goes on as if the line were not
    there, and the same holds for every line with the same insurance slice,
    whatever its other bytes are. *)
Theorem uninsured_record_skipped ParseFloat year ys vdef line insur :
  ext ParseFloat vdef line ("PEGJA" ++ ys) = Ok insur ->
  (insur =? F 1)%float = false ->
  record ParseFloat year ys vdef line = Ok None /\
  (forall sampsize rest,
     records ParseFloat year ys vdef sampsize (line :: rest) =
     records ParseFloat year ys vdef sampsize rest) /\
  (forall line',
     (let u := default (0, 0) (vdef !! ("PEGJA" ++ ys)) in
      slice line' u.1 (wrap64 (u.1 + u.2)) = slice line u.1 (wrap64 (u.1 + u.2))) ->
     record ParseFloat year ys vdef line' = Ok None /\
     forall sampsize rest,
       records ParseFloat year ys vdef sampsize (line' :: rest) =
       records ParseFloat year ys vdef sampsize rest).
Proof.
  intros He Hi.
  assert (Hskip : forall l, record ParseFloat year ys vdef l = Ok None ->
            forall sampsize rest,
              records ParseFloat year ys vdef sampsize (l :: rest) =
              records ParseFloat year ys vdef sampsize rest).
  { intros l Hl sampsize rest. cbn [records]. now rewrite Hl. }
  pose proof (record_uninsured _ year _ _ _ _ He Hi) as Hr.
  split; [exact Hr|]. split; [now apply Hskip|].
  intros line' Hs.
  assert (Hr' : record ParseFloat year ys vdef line' = Ok None).
  { apply (record_uninsured _ year _ _ _ insur); [|exact Hi].
    unfold ext in *. cbv zeta in Hs. now rewrite Hs. }
  split; [exact Hr' | now apply Hskip].
Qed.

Lemma uninsured_record_skipped_witness :
  record parse_integer 2009 "09" {[ "PEGJA09" := (8, 2) ]} "0000000202xx?????--abcdef"
    = Ok None /\
  record parse_integer 2009 "09" {[ "PEGJA09" := (8, 2) ]} "????????02" = Ok None.
Proof.
  pose proof (uninsured_record_skipped parse_integer 2009 "09" {[ "PEGJA09" := (8, 2) ]}
                "0000000202xx?????--abcdef" (F 2) eq_refl eq_refl) as (H1 & _ & H3).
  split; [exact H1|].
  apply (H3 "????????02"). reflexivity.
Defined.

Lemma err_neq_self (err : option error) : bool_decide (err <> err) = false.
Proof. apply bool_decide_eq_false. intros H. now apply H. Qed.

Lemma accumulate_is_ok sampsize stratum wgt :
  is_ok (accumulate sampsize stratum wgt) =
  (0 <=? stratum) && (stratum <? Z.of_nat (length sampsize)).
Proof.
  unfold accumulate.
  destruct ((0 <=? stratum) && (stratum <? Z.of_nat (length sampsize))) eqn:E;
    [|reflexivity].
  apply andb_true_iff in E. destruct E as [E1 E2].
  apply Z.leb_le in E1. apply Z.ltb_lt in E2.
  destruct (lookup_lt_is_Some_2 sampsize (Z.to_nat stratum) ltac:(lia)) as [x ->].
  reflexivity.
Qed.

Lemma accumulate_Ok sampsize stratum wgt v :
  accumulate sampsize stratum wgt = Ok v ->
  0 <= stratum /\
  exists x, sampsize !! Z.to_nat stratum = Some x /\
            v = <[Z.to_nat stratum := (x + wgt)%float]> sampsize.
Proof.
  unfold accumulate.
  destruct ((0 <=? stratum) && (stratum <? Z.of_nat (length sampsize))) eqn:E;
    [|discriminate].
  apply andb_true_iff in E. destruct E as [E1 _]. apply Z.leb_le in E1.
  destruct (sampsize !! Z.to_nat stratum) as [x|]; [|discriminate].
  intros [= <-]. eauto.
Qed.

Section Records.

Variable ParseFloat : string -> option float.
Variables (year : Z) (ys : string) (vdef : gmap string (Z * Z)).

Lemma records_length (lines : list string) : forall sampsize v,
  records ParseFloat year ys vdef sampsize lines = Ok v -> length v = length sampsize.
Proof.
  induction lines as [|line rest IH]; intros sampsize v; cbn [records].
  - now intros [= <-].
  - destruct (record ParseFloat year ys vdef line) as [[[stratum wgt]|]|]; cbn [bind];
      [|apply IH|discriminate].
    destruct (accumulate sampsize stratum wgt) as [s'|] eqn:Ea; [|discriminate].
    cbn [bind]. intros H. apply IH in H. rewrite H.
    apply accumulate_Ok in Ea. destruct Ea as (_ & x & _ & ->).
    apply length_insert.
Qed.

Lemma records_lookup (lines : list string) : forall sampsize v (i : nat) x,
  records ParseFloat year ys vdef sampsize lines = Ok v ->
  sampsize !! i = Some x ->
  v !! i = Some (fold_left (add_weight ParseFloat year ys vdef (Z.of_nat i)) lines x).
Proof.
  induction lines as [|line rest IH]; intros sampsize v i x; cbn [records fold_left].
  - now intros [= <-].
  - unfold add_weight at 2.
    destruct (record ParseFloat year ys vdef line) as [[[stratum wgt]|]|]; cbn [bind];
      [|apply IH|discriminate].
    destruct (accumulate sampsize stratum wgt) as [s'|] eqn:Ea; [|discriminate].
    cbn [bind]. intros H Hx. apply (IH _ _ i _ H).
    apply accumulate_Ok in Ea. destruct Ea as (Hpos & y & Hy & ->).
    destruct (Z.eqb_spec stratum (Z.of_nat i)) as [->|Hne].
    + rewrite Nat2Z.id in *. rewrite Hx in Hy. injection Hy as <-.
      apply list_lookup_insert_eq. now apply lookup_lt_Some in Hx.
    + rewrite list_lookup_insert_ne by lia. exact Hx.
Qed.

Lemma records_is_ok (lines : list string) : forall sampsize,
  length sampsize = 33%nat ->
  is_ok (records ParseFloat year ys vdef sampsize lines) =
  forallb (record_fits ParseFloat year ys vdef) lines.
Proof.
  induction lines as [|line rest IH]; intros sampsize Hlen; cbn [records forallb];
    [reflexivity|].
  unfold record_fits at 1.
  destruct (record ParseFloat year ys vdef line) as [[[stratum wgt]|]|]; cbn [bind];
    [|now apply IH|reflexivity].
  pose proof (accumulate_is_ok sampsize stratum wgt) as Hok.
  rewrite Hlen in Hok. change (Z.of_nat 33) with 33 in Hok. rewrite <- Hok.
  destruct (accumulate sampsize stratum wgt) as [s'|] eqn:Ea; [|reflexivity].
  cbn [bind is_ok andb]. apply IH.
  apply accumulate_Ok in Ea. destruct Ea as (_ & x & _ & ->).
  now rewrite length_insert.
Qed.

End Records.

(** What [getpopw] comes to once the statements file is read and the data
    file is open. *)
Lemma getpopw_open ParseFloat fs year vdef ys hid :
  getvinf fs year = Ok vdef ->
  slice (itoa year) 2 (len (itoa year)) = Ok ys ->
  fs (data_path year) = Ok hid ->
  getpopw ParseFloat fs year =
    let* fid := f_gzip hid in
    let* sampsize := records ParseFloat year ys vdef (replicate 33 (F 0)) (sc_lines fid) in
    match sc_err fid with
    | Some e => Panic e
    | None => Ok sampsize
    end.
Proof.
  intros Hv Hy Hd. unfold getpopw, os_Open. rewrite Hv. cbn [bind]. rewrite Hy.
  cbn [bind]. rewrite Hd. now rewrite err_neq_self.
Qed.

(** When the data file cannot be opened the test of line 157 lets the
    error pass, and [gzip.NewReader] fails on the nil file. *)
Lemma getpopw_open_error ParseFloat fs year vdef ys e :
  getvinf fs year = Ok vdef ->
  slice (itoa year) 2 (len (itoa year)) = Ok ys ->
  fs (data_path year) = Panic e ->
  getpopw ParseFloat fs year = Panic ErrInvalid.
Proof.
  intros Hv Hy Hd. unfold getpopw, os_Open. rewrite Hv. cbn [bind]. rewrite Hy.
  cbn [bind]. rewrite Hd. now rewrite err_neq_self.
Qed.

(** C6. Once the statements file is read and the data file is open and
    decompressing: [getpopw] returns a vector exactly when every record goes
    through the loop body and the lines run out without a read error; the
    vector returned has 33 entries, and entry i is the sum, from 0.0 and in
    the order of the stream, of the weights of the records classified into
    stratum i; for an empty stream it is the vector of 33 zeros. *)
Theorem getpopw_stratum_totals ParseFloat fs year vdef ys hid lines err :
  getvinf fs year = Ok vdef ->
  slice (itoa year) 2 (len (itoa year)) = Ok ys ->
  fs (data_path year) = Ok hid ->
  f_gzip hid = Ok (Scanner lines err) ->
  is_ok (getpopw ParseFloat fs year) =
    forallb (record_fits ParseFloat year ys vdef) lines && bool_decide (err = None) /\
  (forall v, getpopw ParseFloat fs year = Ok v ->
     length v = 33%nat /\
     forall i, (i < 33)%nat ->
       v !! i = Some (stratum_total ParseFloat year ys vdef lines (Z.of_nat i))) /\
  (lines = [] -> err = None -> getpopw ParseFloat fs year = Ok (replicate 33 (F 0))).
Proof.
  intros Hv Hy Hd Hg.
  rewrite (getpopw_open ParseFloat _ _ _ _ _ Hv Hy Hd), Hg. cbn [bind sc_lines sc_err].
  split; [|split].
  - rewrite <- (records_is_ok ParseFloat year ys vdef lines (replicate 33 (F 0)) eq_refl).
    destruct (records ParseFloat year ys vdef (replicate 33 (F 0)) lines); [|reflexivity].
    cbn [bind]. destruct err; reflexivity.
  - intros v.
    destruct (records ParseFloat year ys vdef (replicate 33 (F 0)) lines) as [s|] eqn:Er;
      [|discriminate].
    cbn [bind]. destruct err; [discriminate|]. intros [= <-]. split.
    + now rewrite (records_length _ _ _ _ _ _ _ Er).
    + intros i Hi. apply (records_lookup _ _ _ _ _ _ _ _ _ Er).
      apply lookup_replicate_2. exact Hi.
  - intros -> ->. reflexivity.
Qed.

Lemma getpopw_stratum_totals_witness :
  exists v,
    getpopw parse_integer
      (fs_2009 (Scanner layout_2009 None) (Some (Ok (Scanner data_2009 None)))) 2009 = Ok v /\
    length v = 33%nat /\
    v !! 10%nat = Some (F 1500) /\ v !! 31%nat = Some (F 250) /\ v !! 0%nat = Some (F 0).
Proof.
  pose (fs := fs_2009 (Scanner layout_2009 None) (Some (Ok (Scanner data_2009 None)))).
  destruct (getvinf fs 2009) as [vdef|] eqn:Ev; [|discriminate Ev].
  pose proof (getpopw_stratum_totals parse_integer fs 2009 vdef "09"
                (File (Scanner [] None) (Ok (Scanner data_2009 None)) 0) data_2009 None
                Ev eq_refl eq_refl eq_refl) as (Hok & Hv & _).
  fold fs.
  destruct (getpopw parse_integer fs 2009) as [v|] eqn:Eg.
  - exists v. destruct (Hv v eq_refl) as [Hlen Hsum]. split; [reflexivity|].
    split; [exact Hlen|].
    injection Ev as <-.
    split; [|split]; (rewrite Hsum by lia; vm_compute; reflexivity).
  - injection Ev as <-. vm_compute in Hok. discriminate Hok.
Defined.

(** C4. The data file of 2009 is absent: [os.Open] fails with the error
    that names the path, but [getpopw] does not panic with it; it goes on to
    [gzip.NewReader], and panics there with the error of a nil file.  A file
    that is not gzip data, and a read error in the middle of the stream, do
    end [getpopw] with their own error. *)
Theorem getpopw_missing_data_file (ParseFloat : string -> option float) :
  os_Open (fs_2009 (Scanner layout_2009 None) None) (data_path 2009) =
    (None, Some (PathError "/nfs/kshedden/MEPS/data/2009/h129.dat.gz")) /\
  getpopw ParseFloat (fs_2009 (Scanner layout_2009 None) None) 2009 = Panic ErrInvalid /\
  getpopw ParseFloat
    (fs_2009 (Scanner layout_2009 None) (Some (Panic (ReadError "gzip: invalid header"))))
    2009 = Panic (ReadError "gzip: invalid header") /\
  getpopw ParseFloat
    (fs_2009 (Scanner layout_2009 None) (Some (Ok (Scanner [] (Some (ReadError "unexpected EOF"))))))
    2009 = Panic (ReadError "unexpected EOF").
Proof. repeat split; vm_compute; reflexivity. Qed.

(** * Further properties *)

(** ** The loop over the records *)

(** X1. The loop over a stream is the loop over its first part followed, from
    the vector reached, by the loop over the rest; a panic in the first part
    is the panic of the whole. *)
Theorem records_app ParseFloat year ys vdef (l1 l2 : list string) sampsize :
  records ParseFloat year ys vdef sampsize (l1 ++ l2)%list =
    let* middle := records ParseFloat year ys vdef sampsize l1 in
    records ParseFloat year ys vdef middle l2.
Proof.
  revert sampsize. induction l1 as [|line rest IH]; intros sampsize; [reflexivity|].
  cbn [app records].
  destruct (record ParseFloat year ys vdef line) as [[[stratum wgt]|]|]; cbn [bind];
    [|apply IH|reflexivity].
  destruct (accumulate sampsize stratum wgt) as [s'|]; cbn [bind]; [apply IH|reflexivity].
Qed.

(** X2. Removing from the stream the lines on which the loop body takes a
    [continue] changes neither the vector returned nor the panic. *)
Theorem records_without_skipped ParseFloat year ys vdef (lines : list string) sampsize :
  records ParseFloat year ys vdef sampsize lines =
  records ParseFloat year ys vdef sampsize
    (List.filter (fun line => negb (is_skipped ParseFloat year ys vdef line)) lines).
Proof.
  revert sampsize. induction lines as [|line rest IH]; intros sampsize; [reflexivity|].
  cbn [List.filter]. unfold is_skipped at 1.
  destruct (record ParseFloat year ys vdef line) as [[[stratum wgt]|]|] eqn:Er;
    cbn [negb records]; rewrite Er; cbn [bind].
  - destruct (accumulate sampsize stratum wgt) as [s'|]; cbn [bind];
      [apply IH|reflexivity].
  - apply IH.
  - reflexivity.
Qed.

(** X3. The first line that does not go through the loop body decides the
    panic: after lines that all go through, a line whose fields do not
    decode panics with the decoding error, and a line with a stratum
    outside 0..32 panics with the index error of that stratum, whatever
    follows in the stream. *)
Theorem records_first_failure ParseFloat year ys vdef (l1 : list string) line l2 sampsize :
  length sampsize = 33%nat ->
  forallb (record_fits ParseFloat year ys vdef) l1 = true ->
  record_fits ParseFloat year ys vdef line = false ->
  exists e,
    records ParseFloat year ys vdef sampsize (l1 ++ line :: l2)%list = Panic e /\
    (record ParseFloat year ys vdef line = Panic e \/
     exists stratum wgt,
       record ParseFloat year ys vdef line = Ok (Some (stratum, wgt)) /\
       ~ (0 <= stratum < 33) /\ e = IndexOutOfRange stratum 33).
Proof.
  intros Hlen Hfits Hbad. rewrite records_app.
  pose proof (records_is_ok ParseFloat year ys vdef l1 sampsize Hlen) as Hok.
  rewrite Hfits in Hok.
  destruct (records ParseFloat year ys vdef sampsize l1) as [middle|] eqn:E1;
    [|discriminate]. cbn [bind records].
  apply records_length in E1. rewrite Hlen in E1.
  unfold record_fits in Hbad.
  destruct (record ParseFloat year ys vdef line) as [[[stratum wgt]|]|e];
    [|discriminate|].
  - cbn [bind]. unfold accumulate. rewrite E1. change (Z.of_nat 33) with 33.
    rewrite Hbad. cbn [bind]. eexists. split; [reflexivity|]. right.
    exists stratum, wgt. split; [reflexivity|]. split; [|reflexivity].
    apply andb_false_iff in Hbad. destruct Hbad as [H|H];
      [apply Z.leb_gt in H | apply Z.ltb_ge in H]; lia.
  - cbn [bind]. exists e. split; [reflexivity | now left].
Qed.

Lemma records_first_failure_witness :
  exists e,
    records parse_integer 2015 "15" vdef_2015 (replicate 33 (F 0))
      ["0000000301021194504000250"; "0000000101001198001000100"; "junk"] = Panic e /\
    e = IndexOutOfRange (-1) 33.
Proof.
  destruct (records_first_failure parse_integer 2015 "15" vdef_2015
              ["0000000301021194504000250"] "0000000101001198001000100" ["junk"]
              (replicate 33 (F 0)) eq_refl eq_refl eq_refl) as (e & He & Hc).
  exists e. split; [exact He|].
  destruct Hc as [Hp | (s & w & Hr & _ & ->)].
  - vm_compute in Hp. discriminate Hp.
  - vm_compute in Hr. injection Hr as <- _. reflexivity.
Defined.

(** ** Reading a field *)

Lemma wrap64_small z : - 2 ^ 63 <= z < 2 ^ 63 -> wrap64 z = z.
Proof. intros H. unfold wrap64. rewrite Z.mod_small by lia. lia. Qed.

Lemma wrap64_high z : 2 ^ 63 <= z < 2 ^ 64 -> wrap64 z = z - 2 ^ 64.
Proof.
  intros H. unfold wrap64.
  replace (z + 2 ^ 63) with ((z + 2 ^ 63 - 2 ^ 64) + 1 * 2 ^ 64) by lia.
  rewrite Z_mod_plus_full, Z.mod_small by lia. lia.
Qed.

Lemma in_int64_iff z : in_int64 z = true <-> - 2 ^ 63 <= z < 2 ^ 63.
Proof. unfold in_int64. rewrite andb_true_iff, Z.leb_le, Z.ltb_lt. tauto. Qed.

Lemma ext_in_bounds ParseFloat vdef line vname pos w :
  vdef !! vname = Some (pos, w) ->
  len line < 2 ^ 63 ->
  0 <= pos -> 0 <= w -> pos + w <= len line ->
  ext ParseFloat vdef line vname =
    match ParseFloat (substring (Z.to_nat pos) (Z.to_nat w) line) with
    | Some x => Ok x
    | None => Panic (NumError "ParseFloat" (substring (Z.to_nat pos) (Z.to_nat w) line))
    end.
Proof.
  intros Hv Hlen Hp Hw Hb. unfold ext, slice. rewrite Hv. cbn [default from_option id fst snd].
  rewrite wrap64_small by lia.
  replace ((0 <=? pos) && (pos <=? pos + w) && (pos + w <=? len line)) with true.
  - cbn [bind]. now replace (pos + w - pos) with w by lia.
  - symmetry. rewrite !andb_true_iff, !Z.leb_le. lia.
Qed.

Lemma ext_out_of_bounds ParseFloat vdef line vname pos w :
  vdef !! vname = Some (pos, w) ->
  in_int64 pos = true -> in_int64 w = true ->
  ~ (0 <= pos /\ 0 <= w /\ pos + w <= len line) ->
  ext ParseFloat vdef line vname =
    Panic (SliceOutOfRange pos (wrap64 (pos + w)) (len line)).
Proof.
  intros Hv Hp Hw Hb. apply in_int64_iff in Hp, Hw.
  unfold ext, slice. rewrite Hv. cbn [default from_option id fst snd].
  replace ((0 <=? pos) && (pos <=? wrap64 (pos + w)) && (wrap64 (pos + w) <=? len line))
    with false; [reflexivity|].
  symmetry. rewrite !andb_false_iff, !Z.leb_gt.
  destruct (Z_lt_le_dec pos 0) as [Hneg|Hpos]; [now left; left|].
  destruct (Z_lt_le_dec (pos + w) (2 ^ 63)) as [Hs|Hs].
  - rewrite wrap64_small by lia. lia.
  - rewrite wrap64_high by lia. left. right. lia.
Qed.

(** X4. A variable that the map has at the position [pos] with the width
    [w] is read from the bytes [pos] to [pos + w - 1] of the line and parsed
    as a number; a negative position or width, or a line that ends before
    [pos + w], is a slice panic. *)
Theorem ext_reads_field ParseFloat vdef line vname pos w :
  vdef !! vname = Some (pos, w) ->
  in_int64 pos = true -> in_int64 w = true ->
  len line < 2 ^ 63 ->
  (0 <= pos /\ 0 <= w /\ pos + w <= len line ->
   ext ParseFloat vdef line vname =
     match ParseFloat (substring (Z.to_nat pos) (Z.to_nat w) line) with
     | Some x => Ok x
     | None => Panic (NumError "ParseFloat" (substring (Z.to_nat pos) (Z.to_nat w) line))
     end) /\
  (~ (0 <= pos /\ 0 <= w /\ pos + w <= len line) ->
   ext ParseFloat vdef line vname =
     Panic (SliceOutOfRange pos (wrap64 (pos + w)) (len line))).
Proof.
  intros Hv Hp Hw Hlen. split.
  - intros (H1 & H2 & H3). now apply ext_in_bounds.
  - now apply ext_out_of_bounds.
Qed.

Lemma ext_reads_field_witness :
  ext parse_integer vdef_2015 "0000000301021194504000250" "DOBYY" = Ok (F 1945) /\
  ext parse_integer vdef_2015 "00000003010211945" "REGION15" =
    Panic (SliceOutOfRange 17 19 17) /\
  ext parse_integer (list_to_map [("X", (3, -2))] : gmap string (Z * Z)) "0123456789" "X" =
    Panic (SliceOutOfRange 3 1 10).
Proof.
  split; [|split].
  - rewrite (proj1 (ext_reads_field parse_integer vdef_2015 "0000000301021194504000250"
                      "DOBYY" 13 4 eq_refl eq_refl eq_refl eq_refl));
      [reflexivity | vm_compute; intuition discriminate].
  - rewrite (proj2 (ext_reads_field parse_integer vdef_2015 "00000003010211945"
                      "REGION15" 17 2 eq_refl eq_refl eq_refl eq_refl));
      [reflexivity | vm_compute; intros (_ & _ & H); now apply H].
  - assert (Hx : (list_to_map [("X", (3, -2))] : gmap string (Z * Z)) !! "X"
                 = Some (3, -2)) by (vm_compute; reflexivity).
    rewrite (proj2 (ext_reads_field parse_integer _ "0123456789" "X" 3 (-2) Hx
                      eq_refl eq_refl eq_refl));
      [reflexivity | vm_compute; intros (_ & H & _); now apply H].
Defined.

Lemma ext_missing ParseFloat vdef line vname :
  vdef !! vname = None ->
  ext ParseFloat vdef line vname =
    match ParseFloat "" with
    | Some x => Ok x
    | None => Panic (NumError "ParseFloat" "")
    end.
Proof.
  intros Hmiss. unfold ext, slice. rewrite Hmiss. cbn [default from_option id fst snd].
  change (wrap64 (0 + 0)) with 0.
  pose proof (len_nonneg line) as Hl.
  replace ((0 <=? 0) && (0 <=? 0) && (0 <=? len line)) with true
    by (symmetry; rewrite !andb_true_iff, !Z.leb_le; lia).
  destruct line; reflexivity.
Qed.

(** X5. A data stream that is not empty cannot be aggregated with a map
    that lacks the insurance variable of the year (as the map of a
    statements file without the marker does): the missing name reads as
    position 0 and width 0, the empty slice is not a number, and [getpopw]
    panics on the first line. *)
Theorem getpopw_missing_variable ParseFloat fs year vdef ys hid line lines err :
  ParseFloat "" = None ->
  getvinf fs year = Ok vdef ->
  slice (itoa year) 2 (len (itoa year)) = Ok ys ->
  fs (data_path year) = Ok hid ->
  f_gzip hid = Ok (Scanner (line :: lines) err) ->
  vdef !! ("PEGJA" ++ ys) = None ->
  getpopw ParseFloat fs year = Panic (NumError "ParseFloat" "").
Proof.
  intros Hpf Hv Hy Hd Hg Hmiss.
  rewrite (getpopw_open ParseFloat _ _ _ _ _ Hv Hy Hd), Hg.
  cbn [bind sc_lines records]. unfold record.
  rewrite (ext_missing _ _ _ _ Hmiss), Hpf. reflexivity.
Qed.

Lemma getpopw_missing_variable_witness :
  getpopw parse_integer (fs_all ["DATA WORK.H129;"; "RUN;"] data_2009) 2009 =
    Panic (NumError "ParseFloat" "").
Proof.
  exact (getpopw_missing_variable parse_integer
           (fs_all ["DATA WORK.H129;"; "RUN;"] data_2009) 2009 ∅ "09"
           (File (Scanner [] None) (Ok (Scanner data_2009 None)) 0)
           "0000000101012198002001500" (tl data_2009) None
           eq_refl eq_refl eq_refl eq_refl eq_refl eq_refl).
Defined.

(** X6. The statements file and the records fit together: after [process]
    has read a line with the position token [@p] and the width [w] for a
    name, with p at least 1, [ext] reads for that name the bytes p to
    p + w - 1 of a record, counted from 1, whatever the map held before. *)
Theorem declared_field_is_read ParseFloat vdef dline tok0 vname tok2 rest ipos iw line :
  Fields dline = tok0 :: vname :: tok2 :: rest ->
  Atoi (TrimLeft tok0 "@") = Ok ipos ->
  Atoi (Split_head (TrimLeft tok2 "$") ".") = Ok iw ->
  1 <= ipos -> 0 <= iw -> ipos - 1 + iw <= len line -> len line < 2 ^ 63 ->
  exists vdef',
    process vdef dline = Ok vdef' /\
    ext ParseFloat vdef' line vname =
      match ParseFloat (substring (Z.to_nat (ipos - 1)) (Z.to_nat iw) line) with
      | Some x => Ok x
      | None =>
          Panic (NumError "ParseFloat" (substring (Z.to_nat (ipos - 1)) (Z.to_nat iw) line))
      end.
Proof.
  intros Htoks H0 H2 Hp Hw Hb Hlen.
  exists (<[vname := (ipos - 1, iw)]> vdef). split.
  - rewrite process_tokens, Htoks. cbn. rewrite H0. cbn. rewrite H2. cbn.
    rewrite (wrap64_pred ipos (Atoi_in_int64 _ _ H0)) by lia. reflexivity.
  - apply ext_in_bounds; [apply lookup_insert_eq | lia..].
Qed.

Lemma declared_field_is_read_witness :
  exists vdef',
    process vdef_2015 "@14 DOBYY 4.0" = Ok vdef' /\
    ext parse_integer vdef' "0000000301021194504000250" "DOBYY" = Ok (F 1945).
Proof.
  destruct (declared_field_is_read parse_integer vdef_2015 "@14 DOBYY 4.0"
              "@14" "DOBYY" "4.0" [] 14 4 "0000000301021194504000250"
              eq_refl eq_refl eq_refl) as (v & Hp & He);
    [lia | lia | vm_compute; discriminate | reflexivity |].
  exists v. split; [exact Hp | exact He].
Defined.

(** ** Classification of a record *)

(** X7. When the six fields of a line decode, the loop body does what the
    classification of the five values says: a [continue] for an excluded
    record, the stratum with the decoded weight for a classified one. *)
Theorem record_classify ParseFloat year ys vdef line insur dobyy region wgt emprel female :
  ext ParseFloat vdef line ("PEGJA" ++ ys) = Ok insur ->
  ext ParseFloat vdef line "DOBYY" = Ok dobyy ->
  ext ParseFloat vdef line ("REGION" ++ ys) = Ok region ->
  ext ParseFloat vdef line (default "" (wgtvar !! year)) = Ok wgt ->
  ext ParseFloat vdef line ("HPEJA" ++ ys) = Ok emprel ->
  ext ParseFloat vdef line "SEX" = Ok female ->
  record ParseFloat year ys vdef line =
    match classify insur female dobyy region emprel with
    | Excluded => Ok None
    | Stratum s => Ok (Some (s, wgt))
    | Unspecified => Panic FloatToIntUnspecified
    end.
Proof.
  intros Hi Hd Hr Hw He Hf. unfold record, classify.
  rewrite Hi. cbn [bind].
  destruct (negb (insur =? F 1)%float); [reflexivity|].
  rewrite Hd. cbn [bind]. rewrite Hr. cbn [bind]. rewrite Hw. cbn [bind].
  rewrite He. cbn [bind]. rewrite Hf. cbn [bind].
  destruct (stratum_value dobyy region emprel female) as [x|]; [|reflexivity].
  cbn [verdict_of]. destruct (float_to_int x); reflexivity.
Qed.

Lemma record_classify_witness :
  record parse_integer 2015 "15" vdef_2015 "0000000301021194504000250" =
    Ok (Some (31, F 250)) /\
  classify (F 1) (F 1) (F 1945) (F 4) (F 2) = Stratum 31.
Proof.
  pose proof (record_classify parse_integer 2015 "15" vdef_2015
                "0000000301021194504000250" (F 1) (F 1945) (F 4) (F 250) (F 2) (F 1)
                eq_refl eq_refl eq_refl eq_refl eq_refl eq_refl) as H.
  split; [rewrite H|]; vm_compute; reflexivity.
Defined.

(** X8. The key of a classified record gives its characteristics back: for
    an insured record with sex 1 or 2, employment relation 1 or 2, region 1
    to 4 and a birth year of age stratum [age], the stratum assigned decodes,
    by the formulas of the header comment, to (sex - 1, emprel - 1, age,
    region - 1).  So records that differ in one of the four get different
    strata. *)
Theorem classified_key_decodes insur dobyy (sex emprel region age : Z) :
  (insur =? F 1)%float = true ->
  1 <= sex <= 2 -> 1 <= emprel <= 2 -> 1 <= region <= 4 -> 0 <= age <= 1 ->
  age_stratum dobyy = Some (F age) ->
  exists s,
    classify insur (F sex) dobyy (F region) (F emprel) = Stratum s /\
    1 <= s <= 32 /\
    decode_wgtkey s = (sex - 1, emprel - 1, age, region - 1).
Proof.
  intros Hi Hs He Hr Ha Hage.
  unfold classify, stratum_value. rewrite Hi, Hage. cbn [negb].
  assert (Es : sex = 1 \/ sex = 2) by lia.
  assert (Ee : emprel = 1 \/ emprel = 2) by lia.
  assert (Er : region = 1 \/ region = 2 \/ region = 3 \/ region = 4) by lia.
  assert (Ea : age = 0 \/ age = 1) by lia.
  destruct Es as [-> | ->], Ee as [-> | ->], Ea as [-> | ->],
           Er as [-> | [-> | [-> | ->]]];
    eexists; (split; [vm_compute; reflexivity|]);
    (split; [lia | vm_compute; reflexivity]).
Qed.

Lemma classified_key_decodes_witness :
  exists s,
    classify (F 1) (F 2) (F 1950) (F 3) (F 1) = Stratum s /\
    1 <= s <= 32 /\ decode_wgtkey s = (1, 0, 1, 2).
Proof.
  apply (classified_key_decodes (F 1) (F 1950) 2 1 3 1); try lia; reflexivity.
Defined.

(** ** The statements file *)

Lemma field_section_body vdef (body : list string) t rest :
  Forall (fun line => HasPrefix line ";" = false) body ->
  HasPrefix t ";" = true ->
  field_section vdef (body ++ t :: rest)%list =
    let* '(v, _) := field_section vdef body in Ok (v, Broke rest).
Proof.
  intros Hbody Ht. revert vdef.
  induction Hbody as [|line body Hline _ IH]; intros vdef.
  - cbn. now rewrite Ht.
  - cbn [app field_section]. rewrite Hline.
    destruct (slice line 5 (len line)) as [s|]; [|reflexivity]. cbn [bind].
    destruct (process vdef s) as [v|]; [|reflexivity]. cbn [bind]. apply IH.
Qed.

(** X9. [getvinf] reads the section of the field descriptors only: the
    lines before the marker line, the lines after the first terminator, and
    a read error that the scanner records only after it has yielded the
    terminator line, do not change its result, which is that of the marker
    line and the lines up to the terminator alone.  A read error that the
    scanner has recorded by the time it yields the terminator line makes
    [getvinf] fail. *)
Theorem getvinf_reads_section_only fs year f (pre : list string) m body t rest err :
  fs (layout_path year) = Ok f ->
  f_text f = Scanner (pre ++ m :: body ++ t :: rest)%list err ->
  Forall (fun line => Contains line "INPUT @1" = false) pre ->
  Contains m "INPUT @1" = true ->
  Forall (fun line => HasPrefix line ";" = false) body ->
  HasPrefix t ";" = true ->
  (err = None \/ (length pre + 1 + length body < f_noticed f)%nat ->
   getvinf fs year = scan_vinf (Scanner (m :: body) None) 0) /\
  (err <> None -> (f_noticed f <= length pre + 1 + length body)%nat ->
   is_ok (getvinf fs year) = false).
Proof.
  intros Hf Ht Hpre Hm Hbody Hterm.
  assert (Hbt : before_terminator (body ++ t :: rest) = body).
  { clear - Hbody Hterm. induction Hbody as [|line body Hline _ IH];
      cbn [app before_terminator]; [now rewrite Hterm|].
    now rewrite Hline, IH. }
  split.
  - intros Hlate.
    rewrite (getvinf_open _ _ _ Hf), Ht. unfold scan_vinf. cbn [sc_lines].
    rewrite initial_section_no_marker by exact Hpre.
    cbn [initial_section]. rewrite Hm.
    destruct (slice m 5 (len m)) as [s|]; [|reflexivity]. cbn [bind].
    destruct (process ∅ s) as [v|]; [|reflexivity]. cbn [bind unscanned].
    rewrite Err_no_error.
    assert (E1 : Err (Scanner (pre ++ m :: body ++ t :: rest) err) (f_noticed f)
                   (Broke (body ++ t :: rest)) = None).
    { rewrite Err_break. destruct Hlate as [-> | Hn]; [now destruct (_ <=? _)%nat|].
      destruct (Nat.leb_spec (f_noticed f) (length pre)); [lia | reflexivity]. }
    rewrite E1.
    rewrite (field_section_body v body t rest Hbody Hterm).
    destruct (field_section v body) as [[v' e]|]; [|reflexivity].
    cbn [bind]. rewrite Err_no_error.
    assert (E2 : Err (Scanner (pre ++ m :: body ++ t :: rest) err) (f_noticed f)
                   (Broke rest) = None).
    { replace (pre ++ m :: body ++ t :: rest)%list
        with ((pre ++ m :: body) ++ t :: rest)%list
        by (rewrite <- app_assoc; reflexivity).
      rewrite Err_break, length_app. cbn [length].
      destruct Hlate as [-> | Hn]; [now destruct (_ <=? _)%nat|].
      destruct (Nat.leb_spec (f_noticed f) (length pre + S (length body)));
        [lia | reflexivity]. }
    rewrite E2. reflexivity.
  - intros Herr Hn.
    rewrite (getvinf_open _ _ _ Hf), Ht.
    rewrite (scan_vinf_marker _ _ _ _ _ Hpre Hm), Hbt.
    replace (bool_decide (err = None)) with false
      by (symmetry; now apply bool_decide_eq_false).
    replace (length pre + 1 + length body <? f_noticed f)%nat with false
      by (symmetry; apply Nat.ltb_ge; lia).
    now rewrite andb_false_r, orb_false_r, andb_false_r.
Qed.

Lemma getvinf_reads_section_only_witness :
  getvinf (fs_2009 (Scanner layout_2009 (Some (ReadError "unexpected EOF"))) None) 2009 =
    scan_vinf (Scanner (firstn 7 (skipn 2 layout_2009)) None) 0 /\
  is_ok (getvinf (fs_layout (Scanner layout_2009 (Some (ReadError "unexpected EOF"))) 9)
           2009) = false.
Proof.
  split.
  - refine (proj1 (getvinf_reads_section_only
             (fs_2009 (Scanner layout_2009 (Some (ReadError "unexpected EOF"))) None) 2009 _
             (firstn 2 layout_2009) "INPUT @1 DUPERSID $8.0" (firstn 6 (skipn 3 layout_2009))
             ";" ["RUN;"] (Some (ReadError "unexpected EOF"))
             eq_refl eq_refl ltac:(repeat constructor) eq_refl ltac:(repeat constructor)
             eq_refl) _).
    right. cbn. lia.
  - refine (proj2 (getvinf_reads_section_only
             (fs_layout (Scanner layout_2009 (Some (ReadError "unexpected EOF"))) 9) 2009 _
             (firstn 2 layout_2009) "INPUT @1 DUPERSID $8.0" (firstn 6 (skipn 3 layout_2009))
             ";" ["RUN;"] (Some (ReadError "unexpected EOF"))
             eq_refl eq_refl ltac:(repeat constructor) eq_refl ltac:(repeat constructor)
             eq_refl) _ _).
    + discriminate.
    + cbn. lia.
Defined.

(** X10. [process] looks at the first three fields of a line only: fields
    after the third change nothing; with fewer than two fields it panics
    with an index error, and with exactly two fields it panics with the
    conversion error of the position or, when that is an integer, with an
    index error. *)
Theorem process_token_count vdef line :
  (forall tok0 vname tok2 rest,
     Fields line = tok0 :: vname :: tok2 :: rest ->
     process vdef line =
       let* ipos := Atoi (TrimLeft tok0 "@") in
       let* iw := Atoi (Split_head (TrimLeft tok2 "$") ".") in
       Ok (<[vname := (wrap64 (ipos - 1), iw)]> vdef)) /\
  ((length (Fields line) < 2)%nat ->
   process vdef line = Panic (IndexOutOfRange 1 (Z.of_nat (length (Fields line))))) /\
  (forall tok0 vname,
     Fields line = [tok0; vname] ->
     process vdef line =
       let* ipos := Atoi (TrimLeft tok0 "@") in Panic (IndexOutOfRange 2 2)).
Proof.
  rewrite process_tokens. split; [|split].
  - intros tok0 vname tok2 rest ->. cbn.
    destruct (Atoi (TrimLeft tok0 "@")); reflexivity.
  - destruct (Fields line) as [|tok0 [|vname rest]]; cbn [length]; intros H;
      [reflexivity | reflexivity | lia].
  - intros tok0 vname ->. cbn.
    destruct (Atoi (TrimLeft tok0 "@")); reflexivity.
Qed.

Lemma process_token_count_witness :
  process ∅ "@10 FOO $5 extra tokens" = Ok {[ "FOO" := (9, 5) ]} /\
  process ∅ "@10" = Panic (IndexOutOfRange 1 1) /\
  process ∅ "@10 FOO" = Panic (IndexOutOfRange 2 2).
Proof.
  split; [|split].
  - rewrite (proj1 (process_token_count ∅ "@10 FOO $5 extra tokens")
               "@10" "FOO" "$5" ["extra"; "tokens"] eq_refl).
    vm_compute. reflexivity.
  - apply (proj1 (proj2 (process_token_count ∅ "@10"))). vm_compute. lia.
  - rewrite (proj2 (proj2 (process_token_count ∅ "@10 FOO")) "@10" "FOO" eq_refl).
    reflexivity.
Defined.

Lemma in_int64_wrap64 z : in_int64 (wrap64 z) = true.
Proof.
  apply in_int64_iff. unfold wrap64.
  pose proof (Z.mod_pos_bound (z + 2 ^ 63) (2 ^ 64) ltac:(lia)). lia.
Qed.

Lemma slice_tail_inv line s :
  slice line 5 (len line) = Ok s -> s = substring 5 (Z.to_nat (len line - 5)) line.
Proof.
  destruct (Z_lt_le_dec (len line) 5) as [Hs|Hl].
  - rewrite slice_tail_short by exact Hs. discriminate.
  - rewrite slice_tail_ok by exact Hl. now intros [= <-].
Qed.

Lemma process_Ok_inv vdef s v :
  process vdef s = Ok v ->
  exists tok0 vname tok2 rest ipos iw,
    Fields s = tok0 :: vname :: tok2 :: rest /\
    Atoi (TrimLeft tok0 "@") = Ok ipos /\
    Atoi (Split_head (TrimLeft tok2 "$") ".") = Ok iw /\
    v = <[vname := (wrap64 (ipos - 1), iw)]> vdef.
Proof.
  rewrite process_tokens.
  destruct (Fields s) as [|tok0 [|vname [|tok2 rest]]]; try discriminate.
  - destruct (Atoi (TrimLeft tok0 "@")); discriminate.
  - cbn. destruct (Atoi (TrimLeft tok0 "@")) as [ipos|] eqn:E0; [|discriminate].
    cbn. destruct (Atoi (Split_head (TrimLeft tok2 "$") ".")) as [iw|] eqn:E2;
      [|discriminate].
    cbn. intros [= <-]. exists tok0, vname, tok2, rest, ipos, iw. auto.
Qed.

Lemma line_declared vdef line s v name pos w :
  slice line 5 (len line) = Ok s ->
  process vdef s = Ok v ->
  v !! name = Some (pos, w) ->
  vdef !! name = Some (pos, w) \/ declares line name pos w.
Proof.
  intros Hs Hp Hv. apply slice_tail_inv in Hs. subst s.
  apply process_Ok_inv in Hp.
  destruct Hp as (tok0 & vname & tok2 & rest & ipos & iw & Hf & H0 & H2 & ->).
  destruct (decide (vname = name)) as [->|Hne].
  - rewrite lookup_insert_eq in Hv. injection Hv as <- <-.
    right. exists tok0, tok2, rest, ipos. auto.
  - rewrite lookup_insert_ne in Hv by exact Hne. now left.
Qed.

Lemma field_section_declared (lines : list string) : forall vdef v e name pos w,
  field_section vdef lines = Ok (v, e) ->
  v !! name = Some (pos, w) ->
  vdef !! name = Some (pos, w) \/
  exists line, In line lines /\ declares line name pos w.
Proof.
  induction lines as [|line rest IH]; intros vdef v e name pos w; cbn [field_section].
  - intros [= <- <-] Hv. now left.
  - destruct (HasPrefix line ";"); [intros [= <- <-] Hv; now left|].
    destruct (slice line 5 (len line)) as [s|] eqn:Es; [|discriminate]. cbn [bind].
    destruct (process vdef s) as [v1|] eqn:Ep; [|discriminate]. cbn [bind].
    intros Hrest Hv.
    destruct (IH _ _ _ _ _ _ Hrest Hv) as [H1 | (l & Hin & Hd)].
    + destruct (line_declared _ _ _ _ _ _ _ Es Ep H1) as [H0 | Hd]; [now left|].
      right. exists line. split; [now left | exact Hd].
    + right. exists l. split; [now right | exact Hd].
Qed.

Lemma initial_section_declared (lines : list string) : forall vdef v e name pos w,
  initial_section vdef lines = Ok (v, e) ->
  (forall l, In l (unscanned e) -> In l lines) /\
  (v !! name = Some (pos, w) ->
   vdef !! name = Some (pos, w) \/
   exists line, In line lines /\ declares line name pos w).
Proof.
  induction lines as [|line rest IH]; intros vdef v e name pos w; cbn [initial_section].
  - intros [= <- <-]. split; [intros l []|]. now left.
  - destruct (Contains line "INPUT @1").
    + destruct (slice line 5 (len line)) as [s|] eqn:Es; [|discriminate]. cbn [bind].
      destruct (process vdef s) as [v1|] eqn:Ep; [|discriminate]. cbn [bind].
      intros [= <- <-]. split; [intros l Hl; now right|].
      intros Hv. destruct (line_declared _ _ _ _ _ _ _ Es Ep Hv) as [H0 | Hd];
        [now left|].
      right. exists line. split; [now left | exact Hd].
    + intros H. destruct (IH _ _ _ name pos w H) as [Hsub Hdecl]. split.
      * intros l Hl. right. now apply Hsub.
      * intros Hv. destruct (Hdecl Hv) as [H0 | (l & Hin & Hd)]; [now left|].
        right. exists l. split; [now right | exact Hd].
Qed.

(** X11. Every entry of the map that [getvinf] returns was declared by a
    line of the statements file: the name is the second field after the
    first five bytes of that line, the position is one less than its first
    field without the leading [@], the width is its third field without the
    leading [$] and cut at the decimal point; and both numbers fit a Go
    [int]. *)
Theorem getvinf_entries_declared fs year vdef name pos w :
  getvinf fs year = Ok vdef ->
  vdef !! name = Some (pos, w) ->
  exists f line,
    fs (layout_path year) = Ok f /\
    In line (sc_lines (f_text f)) /\
    declares line name pos w /\
    in_int64 pos = true /\ in_int64 w = true.
Proof.
  intros Hg Hv. unfold getvinf, os_Open in Hg.
  destruct (fs (layout_path year)) as [f|] eqn:Ef; [|discriminate].
  cbn [bufio_NewScanner] in Hg. unfold scan_vinf in Hg.
  destruct (initial_section ∅ (sc_lines (f_text f))) as [[v1 e1]|] eqn:E1;
    [|discriminate]. cbn [bind] in Hg.
  destruct (Err (f_text f) _ e1); [discriminate|].
  destruct (field_section v1 (unscanned e1)) as [[v2 e2]|] eqn:E2; [|discriminate].
  cbn [bind] in Hg. destruct (Err (f_text f) _ e2); [discriminate|].
  injection Hg as ->.
  destruct (initial_section_declared _ _ _ _ name pos w E1) as [Hsub Hdecl].
  assert (Hline : exists line, In line (sc_lines (f_text f)) /\ declares line name pos w).
  { destruct (field_section_declared _ _ _ _ _ _ _ E2 Hv) as [H1 | (l & Hin & Hd)].
    - destruct (Hdecl H1) as [H0 | H]; [|exact H].
      rewrite lookup_empty in H0. discriminate.
    - exists l. split; [now apply Hsub | exact Hd]. }
  destruct Hline as (line & Hin & Hd).
  exists f, line. split; [reflexivity|]. split; [exact Hin|]. split; [exact Hd|].
  destruct Hd as (tok0 & tok2 & rest & ipos & _ & _ & -> & H2).
  split; [apply in_int64_wrap64 | exact (Atoi_in_int64 _ _ H2)].
Qed.

Lemma getvinf_entries_declared_witness :
  exists f line,
    fs_2009 (Scanner layout_2009 None) None (layout_path 2009) = Ok f /\
    In line (sc_lines (f_text f)) /\
    declares line "DOBYY" 13 4 /\
    in_int64 13 = true /\ in_int64 4 = true.
Proof.
  destruct (getvinf (fs_2009 (Scanner layout_2009 None) None) 2009) as [vdef|] eqn:Ev;
    [|vm_compute in Ev; discriminate Ev].
  apply (getvinf_entries_declared _ 2009 vdef "DOBYY" 13 4 Ev).
  vm_compute in Ev. injection Ev as <-. vm_compute. reflexivity.
Defined.

(** ** Failures of getpopw *)

(** X12. Which failure ends [getpopw]: a failure of [getvinf] ends it before
    the data file is looked at; then a failure to decompress; then, in the
    order of the stream, a panic of the loop body, which wins over a read
    error at the end of the stream; and a read error at the end ends it
    although every record went through, so the totals are lost. *)
Theorem getpopw_failure_order ParseFloat fs year :
  (forall e, getvinf fs year = Panic e -> getpopw ParseFloat fs year = Panic e) /\
  (forall vdef ys hid,
     getvinf fs year = Ok vdef ->
     slice (itoa year) 2 (len (itoa year)) = Ok ys ->
     fs (data_path year) = Ok hid ->
     (forall e, f_gzip hid = Panic e -> getpopw ParseFloat fs year = Panic e) /\
     (forall lines err,
        f_gzip hid = Ok (Scanner lines err) ->
        (forall e,
           records ParseFloat year ys vdef (replicate 33 (F 0)) lines = Panic e ->
           getpopw ParseFloat fs year = Panic e) /\
        (forall v e,
           records ParseFloat year ys vdef (replicate 33 (F 0)) lines = Ok v ->
           err = Some e ->
           getpopw ParseFloat fs year = Panic e))).
Proof.
  split.
  - intros e He. unfold getpopw. now rewrite He.
  - intros vdef ys hid Hv Hy Hd.
    rewrite (getpopw_open ParseFloat _ _ _ _ _ Hv Hy Hd). split.
    + intros e ->. reflexivity.
    + intros lines err ->. cbn [bind sc_lines sc_err]. split.
      * intros e ->. reflexivity.
      * intros v e -> ->. reflexivity.
Qed.

Lemma getpopw_failure_order_witness :
  getpopw parse_integer
    (fs_2009 (Scanner layout_2009 None)
       (Some (Ok (Scanner (data_2009 ++ ["short"])%list (Some (ReadError "unexpected EOF"))))))
    2009 = Panic (SliceOutOfRange 8 10 5) /\
  getpopw parse_integer
    (fs_2009 (Scanner layout_2009 None)
       (Some (Ok (Scanner data_2009 (Some (ReadError "unexpected EOF"))))))
    2009 = Panic (ReadError "unexpected EOF").
Proof.
  split.
  - pose (fs := fs_2009 (Scanner layout_2009 None)
       (Some (Ok (Scanner (data_2009 ++ ["short"])%list (Some (ReadError "unexpected EOF")))))).
    destruct (getvinf fs 2009) as [vdef|] eqn:Ev; [|vm_compute in Ev; discriminate Ev].
    refine (proj1 (proj2 (proj2 (getpopw_failure_order parse_integer fs 2009)
              vdef "09" _ Ev eq_refl eq_refl) _ _ eq_refl) _ _).
    vm_compute in Ev. injection Ev as <-. vm_compute. reflexivity.
  - pose (fs := fs_2009 (Scanner layout_2009 None)
       (Some (Ok (Scanner data_2009 (Some (ReadError "unexpected EOF")))))).
    destruct (getvinf fs 2009) as [vdef|] eqn:Ev; [|vm_compute in Ev; discriminate Ev].
    destruct (records parse_integer 2009 "09" vdef (replicate 33 (F 0)) data_2009)
      as [v|] eqn:Er.
    + exact (proj2 (proj2 (proj2 (getpopw_failure_order parse_integer fs 2009)
               vdef "09" _ Ev eq_refl eq_refl) _ _ eq_refl) v _ Er eq_refl).
    + vm_compute in Ev. injection Ev as <-. vm_compute in Er. discriminate Er.
Defined.

(** ** main *)

Lemma getpopw_length ParseFloat fs year v :
  getpopw ParseFloat fs year = Ok v -> length v = 33%nat.
Proof.
  unfold getpopw.
  destruct (getvinf fs year) as [vdef|]; [|discriminate]. cbn [bind].
  destruct (slice (itoa year) 2 (len (itoa year))) as [ys|]; [|discriminate].
  cbn [bind]. destruct (os_Open fs (data_path year)) as [hid err].
  rewrite err_neq_self.
  destruct (gzip_NewReader hid) as [fid|]; [|discriminate]. cbn [bind].
  destruct (records ParseFloat year ys vdef (replicate 33 (F 0)) (sc_lines fid))
    as [s|] eqn:Er; [|discriminate].
  cbn [bind]. destruct (sc_err fid); [discriminate|]. intros [= <-].
  now rewrite (records_length _ _ _ _ _ _ _ Er).
Qed.

Lemma collect_fail ParseFloat fs (done : list Z) y rest e : forall dw,
  Forall (fun z => is_ok (getpopw ParseFloat fs z) = true) done ->
  getpopw ParseFloat fs y = Panic e ->
  collect ParseFloat fs dw (done ++ y :: rest)%list = Panic e.
Proof.
  intros dw Hdone Hy. revert dw.
  induction Hdone as [|z done Hz _ IH]; intros dw; cbn [app collect].
  - now rewrite Hy.
  - destruct (getpopw ParseFloat fs z); [|discriminate]. cbn [bind]. apply IH.
Qed.

Lemma collect_ok ParseFloat fs (v : Z -> list float) (ys : list Z) : forall dw,
  (forall y, In y ys -> getpopw ParseFloat fs y = Ok (v y)) ->
  exists dw',
    collect ParseFloat fs dw ys = Ok dw' /\
    (forall y, In y ys -> dw' !! y = Some (v y)) /\
    (forall y, ~ In y ys -> dw' !! y = dw !! y).
Proof.
  induction ys as [|y0 rest IH]; intros dw Hall.
  - exists dw. split; [reflexivity|]. split; [intros y []|reflexivity].
  - cbn [collect]. rewrite (Hall y0) by now left. cbn [bind].
    destruct (IH (<[y0 := v y0]> dw)) as (dw' & Hc & Hin & Hout).
    { intros y Hy. apply Hall. now right. }
    exists dw'. split; [exact Hc|]. split.
    + intros y [<-|Hy]; [|now apply Hin].
      destruct (in_dec Z.eq_dec y0 rest) as [Hi|Hn]; [now apply Hin|].
      rewrite (Hout _ Hn). apply lookup_insert_eq.
    + intros y Hy. rewrite Hout by (intros H; apply Hy; now right).
      apply lookup_insert_ne. intros ->. apply Hy. now left.
Qed.

Section Table.

Variable format_f0 : float -> string.
Variable v : Z -> list float.
Variable dw : gmap Z (list float).
Hypothesis dw_years : forall y, In y years -> dw !! y = Some (v y).
Hypothesis v_length : forall y, In y years -> length (v y) = 33%nat.

Lemma cell_ok (j i : nat) :
  In (2009 + Z.of_nat j) years -> (i < 33)%nat ->
  cell dw j i = Ok (default (F 0) (v (2009 + Z.of_nat j) !! i)).
Proof.
  intros Hj Hi. unfold cell. rewrite (dw_years _ Hj). cbn [default from_option id].
  destruct (lookup_lt_is_Some_2 (v (2009 + Z.of_nat j)) i) as [x Hx].
  - rewrite (v_length _ Hj). exact Hi.
  - rewrite Hx. reflexivity.
Qed.

Lemma fill_row_ok (i : nat) (recs : list string) :
  length recs = 7%nat -> (i < 33)%nat ->
  fill_row format_f0 dw i (seq 0 7) recs = Ok (table_row format_f0 v i).
Proof.
  intros Hlen Hi.
  destruct recs as [|r0 [|r1 [|r2 [|r3 [|r4 [|r5 [|r6 [|r7 recs]]]]]]]]; try discriminate.
  cbn [seq fill_row].
  assert (Hy : forall j, (j < 7)%nat -> In (2009 + Z.of_nat j) years).
  { intros j Hj. unfold years.
    destruct j as [|[|[|[|[|[|[|j]]]]]]]; cbn; try tauto. lia. }
  rewrite (cell_ok 0 i (Hy 0%nat ltac:(lia)) Hi). cbn [bind set_rec length Nat.ltb Nat.leb].
  rewrite (cell_ok 1 i (Hy 1%nat ltac:(lia)) Hi). cbn [bind set_rec length Nat.ltb Nat.leb].
  rewrite (cell_ok 2 i (Hy 2%nat ltac:(lia)) Hi). cbn [bind set_rec length Nat.ltb Nat.leb].
  rewrite (cell_ok 3 i (Hy 3%nat ltac:(lia)) Hi). cbn [bind set_rec length Nat.ltb Nat.leb].
  rewrite (cell_ok 4 i (Hy 4%nat ltac:(lia)) Hi). cbn [bind set_rec length Nat.ltb Nat.leb].
  rewrite (cell_ok 5 i (Hy 5%nat ltac:(lia)) Hi). cbn [bind set_rec length Nat.ltb Nat.leb].
  rewrite (cell_ok 6 i (Hy 6%nat ltac:(lia)) Hi). cbn [bind set_rec length Nat.ltb Nat.leb].
  reflexivity.
Qed.

Lemma write_rows_ok (write : nat -> option error) (rws : list nat) :
  forall recs out,
    length recs = 7%nat -> Forall (fun i => (i < 33)%nat) rws ->
    write_rows format_f0 write dw rws recs out =
      ((out ++ map (table_row format_f0 v) (handed write rws))%list,
       write_error write rws).
Proof.
  induction rws as [|i rest IH]; intros recs out Hlen Hall;
    cbn [write_rows handed write_error].
  - cbn [map]. now rewrite app_nil_r.
  - inversion Hall as [|? ? Hi Hrest]; subst.
    rewrite (fill_row_ok i recs Hlen Hi).
    destruct (write (S i)); [reflexivity|].
    rewrite IH; [|reflexivity|exact Hrest].
    cbn [map]. now rewrite <- app_assoc.
Qed.

End Table.

Lemma handed_all (write : nat -> option error) (rws : list nat) :
  (forall i, In i rws -> write (S i) = None) ->
  handed write rws = rws /\ write_error write rws = None.
Proof.
  induction rws as [|i rest IH]; intros H; [split; reflexivity|].
  cbn [handed write_error]. rewrite (H i) by now left.
  destruct IH as [-> ->]; [intros k Hk; apply H; now right|]. split; reflexivity.
Qed.

(** X13. [main] stops at the first year that [getpopw] cannot aggregate: it
    panics with the error of that year, without creating the output file
    and without handing any row to the writer, whatever the later years
    would give. *)
Theorem main_first_failing_year ParseFloat format_f0 fs create write
    (done : list Z) y rest e :
  years = (done ++ y :: rest)%list ->
  Forall (fun z => is_ok (getpopw ParseFloat fs z) = true) done ->
  getpopw ParseFloat fs y = Panic e ->
  main ParseFloat format_f0 fs create write = (Output false [], Some e).
Proof.
  intros Hy Hdone He. unfold main. rewrite Hy.
  now rewrite (collect_fail ParseFloat fs done y rest e ∅ Hdone He).
Qed.

Lemma main_first_failing_year_witness :
  main parse_integer format_small
    (fs_2009 (Scanner layout_2009 None) (Some (Ok (Scanner data_2009 None))))
    None (fun _ => None) =
  (Output false [], Some (PathError "/nfs/kshedden/MEPS/data/2010/h138su.txt")).
Proof.
  apply (main_first_failing_year parse_integer format_small _ None (fun _ => None)
           [2009] 2010 [2011; 2012; 2013; 2014; 2015]).
  - reflexivity.
  - repeat constructor.
  - vm_compute. reflexivity.
Defined.

(** X14. When [getpopw] gives a vector for each of the seven years: if the
    output file cannot be created [main] panics with that error and writes
    nothing; otherwise it hands to the writer the header row of the years
    and then the rows of the strata 0, 1, ... in order, row i holding the
    formatted totals of stratum i for 2009 to 2015, up to and including the
    first row whose write fails, and panics with that write error.  The
    result of writing the header is not looked at, and no index is out of
    range.  Without write errors the table has 34 rows of 7 cells. *)
Theorem main_table ParseFloat format_f0 fs create write (v : Z -> list float) :
  (forall y, In y years -> getpopw ParseFloat fs y = Ok (v y)) ->
  main ParseFloat format_f0 fs create write =
    match create with
    | Some e => (Output false [], Some e)
    | None =>
        (Output true
           (map itoa years :: map (table_row format_f0 v) (handed write (seq 0 33))),
         write_error write (seq 0 33))
    end /\
  ((forall k, write (S k) = None) ->
   handed write (seq 0 33) = seq 0 33 /\ write_error write (seq 0 33) = None /\
   length (map itoa years :: map (table_row format_f0 v) (seq 0 33)) = 34%nat /\
   Forall (fun row => length row = 7%nat)
     (map itoa years :: map (table_row format_f0 v) (seq 0 33))).
Proof.
  intros Hall. split.
  - unfold main.
    destruct (collect_ok ParseFloat fs v years ∅ Hall) as (dw & -> & Hin & _).
    destruct create as [e|]; [reflexivity|].
    change (fill_header (seq 0 7) (replicate 7 "")) with (Ok (map itoa years)).
    cbv beta iota.
    rewrite (write_rows_ok format_f0 v dw Hin
               (fun y Hy => getpopw_length _ _ _ _ (Hall y Hy)) write (seq 0 33)
               (map itoa years) [map itoa years] eq_refl).
    + reflexivity.
    + apply List.Forall_forall. intros i Hi. apply in_seq in Hi. lia.
  - intros Hw.
    destruct (handed_all write (seq 0 33) (fun i _ => Hw i)) as [-> ->].
    split; [reflexivity|]. split; [reflexivity|]. split; [reflexivity|].
    constructor; [reflexivity|].
    apply List.Forall_forall. intros row Hrow. apply in_map_iff in Hrow.
    destruct Hrow as (i & <- & _). reflexivity.
Qed.

Lemma main_table_witness :
  exists data_rows,
    main parse_integer format_small (fs_all layout_2009 data_2009) None
      (fun k => match k with O => Some (ReadError "disk full") | _ => None end) =
    (Output true (["2009"; "2010"; "2011"; "2012"; "2013"; "2014"; "2015"] :: data_rows),
     None) /\
    length data_rows = 33%nat /\
    data_rows !! 10%nat = Some ["1500"; "0"; "0"; "0"; "0"; "0"; "0"] /\
    data_rows !! 31%nat = Some ["250"; "0"; "0"; "0"; "0"; "0"; "0"].
Proof.
  pose (fs := fs_all layout_2009 data_2009).
  pose (v := fun y => match getpopw parse_integer fs y with Ok x => x | Panic _ => [] end).
  pose (write := fun k : nat => match k with
                                | O => Some (ReadError "disk full") | _ => None end).
  assert (Hall : forall y, In y years -> getpopw parse_integer fs y = Ok (v y)).
  { intros y Hy. unfold v.
    repeat (destruct Hy as [<- | Hy]; [vm_compute; reflexivity|]). destruct Hy. }
  destruct (main_table parse_integer format_small fs None write v Hall) as [Hm Hw].
  destruct (Hw (fun _ => eq_refl)) as (Hh & He & _ & _).
  rewrite Hh, He in Hm.
  exists (map (table_row format_small v) (seq 0 33)).
  split; [exact Hm|]. split; [reflexivity|]. split; vm_compute; reflexivity.
Defined.

(** ** The year suffix of the variable names *)

Lemma year_suffix_check :
  forallb (fun y =>
             match slice (itoa y) 2 (len (itoa y)) with
             | Ok s => String.eqb s (two_digits (y mod 100))
             | Panic _ => false
             end) (map Z.of_nat (seq (Z.to_nat 1000) (Z.to_nat 9000))) = true.
Proof. vm_compute. reflexivity. Qed.

(** X15. The suffix that [getpopw] puts on the variable names (line 149) is
    what follows the first two characters of the decimal year: for a year
    of four digits, its last two digits; a year from 0 to 9 has no such
    slice, and [getpopw] panics on it once the statements file is read. *)
Theorem year_suffix ParseFloat fs year :
  (1000 <= year <= 9999 ->
   slice (itoa year) 2 (len (itoa year)) = Ok (two_digits (year mod 100))) /\
  (0 <= year <= 9 ->
   is_ok (getvinf fs year) = true ->
   getpopw ParseFloat fs year = Panic (SliceOutOfRange 2 1 1)).
Proof.
  split.
  - intros Hy.
    assert (Hin : In year (map Z.of_nat (seq (Z.to_nat 1000) (Z.to_nat 9000)))).
    { apply in_map_iff. exists (Z.to_nat year). split; [lia|]. apply in_seq. lia. }
    pose proof (proj1 (forallb_forall _ _) year_suffix_check year Hin) as Hc.
    cbv beta in Hc.
    destruct (slice (itoa year) 2 (len (itoa year))) as [s|]; [|discriminate].
    apply String.eqb_eq in Hc. now subst s.
  - intros Hy Hok. unfold getpopw.
    destruct (getvinf fs year) as [vdef|]; [|discriminate]. cbn [bind].
    assert (E : year = 0 \/ year = 1 \/ year = 2 \/ year = 3 \/ year = 4 \/ year = 5 \/
                year = 6 \/ year = 7 \/ year = 8 \/ year = 9) by lia.
    repeat (destruct E as [-> | E]; [reflexivity|]). subst year. reflexivity.
Qed.

Lemma year_suffix_witness :
  slice (itoa 2009) 2 (len (itoa 2009)) = Ok "09" /\
  getpopw parse_integer (fs_all layout_2009 data_2009) 7 = Panic (SliceOutOfRange 2 1 1).
Proof.
  split.
  - apply (proj1 (year_suffix parse_integer (fs_all layout_2009 data_2009) 2009)). lia.
  - apply (proj2 (year_suffix parse_integer (fs_all layout_2009 data_2009) 7));
      [lia | reflexivity].
Defined.

(** ** Names of the map *)

Lemma process_names vdef s v :
  process vdef s = Ok v ->
  (forall name, is_Some (vdef !! name) -> is_Some (v !! name)) /\
  (forall name, Fields s !! 1%nat = Some name -> is_Some (v !! name)).
Proof.
  intros Hp. apply process_Ok_inv in Hp.
  destruct Hp as (tok0 & vname & tok2 & rest & ipos & iw & Hf & _ & _ & ->). split.
  - intros name Hn. destruct (decide (vname = name)) as [->|Hne].
    + rewrite lookup_insert_eq. eauto.
    + now rewrite lookup_insert_ne.
  - intros name. rewrite Hf. cbn. intros [= <-]. rewrite lookup_insert_eq. eauto.
Qed.

Lemma field_section_names (lines : list string) : forall vdef v e,
  field_section vdef lines = Ok (v, e) ->
  (forall name, is_Some (vdef !! name) -> is_Some (v !! name)) /\
  (forall line name,
     In line (before_terminator lines) -> line_name line = Some name ->
     is_Some (v !! name)).
Proof.
  induction lines as [|line rest IH]; intros vdef v e;
    cbn [field_section before_terminator].
  - intros [= <- <-]. split; [auto | intros l n []].
  - destruct (HasPrefix line ";"); [intros [= <- <-]; split; [auto | intros l n []]|].
    destruct (slice line 5 (len line)) as [s|] eqn:Es; [|discriminate]. cbn [bind].
    destruct (process vdef s) as [v1|] eqn:Ep; [|discriminate]. cbn [bind].
    intros Hrest. apply slice_tail_inv in Es. subst s.
    destruct (process_names _ _ _ Ep) as [Hmono Hname].
    destruct (IH _ _ _ Hrest) as [Hmono' Hnames']. split.
    + intros name Hn. apply Hmono', Hmono, Hn.
    + intros l name [<-|Hin] Hl.
      * apply Hmono'. apply Hname. exact Hl.
      * now apply (Hnames' l).
Qed.

(** X16. When [getvinf] returns a map, every line that it processed left an
    entry under its name: the marker line, and each line after it up to the
    first one starting with a semicolon, has its second field (after the
    first five bytes) among the names of the map. *)
Theorem getvinf_names_complete fs year f (pre : list string) m body err vdef line name :
  fs (layout_path year) = Ok f ->
  f_text f = Scanner (pre ++ m :: body)%list err ->
  Forall (fun l => Contains l "INPUT @1" = false) pre ->
  Contains m "INPUT @1" = true ->
  getvinf fs year = Ok vdef ->
  In line (m :: before_terminator body) ->
  line_name line = Some name ->
  is_Some (vdef !! name).
Proof.
  intros Hf Ht Hpre Hm Hg Hin Hname.
  rewrite (getvinf_open _ _ _ Hf), Ht in Hg. unfold scan_vinf in Hg.
  cbn [sc_lines] in Hg. rewrite initial_section_no_marker in Hg by exact Hpre.
  rewrite (initial_section_marker ∅ m body Hm) in Hg.
  destruct (process ∅ (substring 5 (Z.to_nat (len m - 5)) m)) as [v1|] eqn:Ep;
    [|discriminate]. cbn [bind unscanned] in Hg.
  destruct (Err _ _ (Broke body)); [discriminate|].
  destruct (field_section v1 body) as [[v2 e2]|] eqn:E2; [|discriminate].
  cbn [bind] in Hg. destruct (Err _ _ e2); [discriminate|]. injection Hg as ->.
  destruct (field_section_names _ _ _ _ E2) as [Hmono Hnames].
  destruct Hin as [<-|Hin].
  - apply Hmono. apply (proj2 (process_names _ _ _ Ep)). exact Hname.
  - now apply (Hnames line).
Qed.

Lemma getvinf_names_complete_witness :
  exists vdef,
    getvinf (fs_2009 (Scanner layout_2009 None) None) 2009 = Ok vdef /\
    is_Some (vdef !! "REGION09").
Proof.
  destruct (getvinf (fs_2009 (Scanner layout_2009 None) None) 2009) as [vdef|] eqn:Hg;
    [|vm_compute in Hg; discriminate Hg].
  exists vdef. split; [reflexivity|].
  apply (getvinf_names_complete (fs_2009 (Scanner layout_2009 None) None) 2009 _
           (firstn 2 layout_2009) "INPUT @1 DUPERSID $8.0" (skipn 3 layout_2009) None
           vdef "     @18 REGION09 2.0" "REGION09" eq_refl eq_refl);
    [repeat constructor | reflexivity | exact Hg | cbn; tauto | reflexivity].
Defined.
